(** * HealthSphere ML API: a shallow embedding of the scoring rules, the
      activity routes and the conversation store, with the properties
      the specification states about them.

    Sources embedded (paths under [src/ml_api/app]):
    - [services/food_recognition_service.py]
    - [services/risk_forecasting_service.py]
    - [services/activity_detection_service.py], [routes/activity_detection.py]
    - [services/chat_service.py]

    Python [float] is IEEE binary64 and is modelled by Rocq's primitive
    floats, so every rounding of the source is the rounding of the model.
    Python [int] is [Z].  A [dict] read with [.get] is a [gmap]; an
    exception is a value of [Py.exn] carried by [Py.result]. *)

From Stdlib Require Import ZArith List String Ascii Floats.
From stdpp Require Import gmap strings pretty.

Set Warnings "-inexact-float".
Open Scope Z_scope.

(* ================================================================== *)
(** * Part I.  The embedding                                           *)
(* ================================================================== *)

(** ** Python values, exceptions and the builtins the sources use *)
Module Py.

(** The exception classes that occur in the embedded code.  Each carries
    the text that [str(e)] returns, except [HTTPException], which
    carries FastAPI's [status_code] and [detail]. *)
Inductive exn : Type :=
| ValueError (msg : string)
| ZeroDivisionError (msg : string)
| OverflowError (msg : string)
| IndexError (msg : string)
| Exception_ (msg : string)
| HTTPException (status_code : Z) (detail : string).

(** A call either returns a value or raises. *)
Inductive result (A : Type) : Type :=
| Ok (a : A)
| Raise (e : exn).
Arguments Ok {A} a.
Arguments Raise {A} e.

(** Sequencing: the first exception raised propagates ([x ← r; k]). *)
#[global] Instance result_ret : MRet result := @Ok.
#[global] Instance result_bind : MBind result := fun A B k r =>
  match r with
  | Ok a => k a
  | Raise e => Raise e
  end.

(** [try: body  except Exception as e: handler(e)]. *)
Definition try_except {A} (body : result A) (handler : exn -> result A)
  : result A :=
  match body with
  | Ok a => Ok a
  | Raise e => handler e
  end.

Definition is_ok {A} (r : result A) : bool :=
  match r with Ok _ => true | Raise _ => false end.

(** [str(e)].  For [HTTPException] this is Starlette's
    [f"{status_code}: {detail}"]. *)
Definition str_exn (e : exn) : string :=
  match e with
  | ValueError m | ZeroDivisionError m | OverflowError m
  | IndexError m | Exception_ m => m
  | HTTPException c d => pretty c +:+ ": " +:+ d
  end.

(** *** Numbers *)

(** A Python number as it occurs in the tables and requests: an [int]
    or a [float]. *)
Inductive num : Type :=
| Int (z : Z)
| Float (f : float).

(** [float(z)], for |z| < 2^63 (every integer literal of the sources).
    Exact up to 2^53. *)
Definition float_of_Z (z : Z) : float :=
  if z <? 0 then (- of_uint63 (Uint63.of_Z (- z)))%float
  else of_uint63 (Uint63.of_Z z).

Definition to_float (x : num) : float :=
  match x with
  | Int z => float_of_Z z
  | Float f => f
  end.

(** [a < b] and [a > b].  Two ints compare as integers; otherwise the
    int operand is compared through its float value, which is what
    Python's exact mixed comparison gives for ints below 2^53. *)
Definition lt (a b : num) : bool :=
  match a, b with
  | Int x, Int y => x <? y
  | _, _ => PrimFloat.ltb (to_float a) (to_float b)
  end.

Definition gt (a b : num) : bool := lt b a.

(** [min(a, b)] and [max(a, b)] keep the first argument unless the
    second is strictly smaller (larger). *)
Definition min (a b : num) : num := if lt b a then b else a.
Definition max (a b : num) : num := if gt b a then b else a.

(** [a / b] on floats raises on a zero divisor. *)
Definition truediv (a b : float) : result float :=
  if PrimFloat.is_zero b then Raise (ZeroDivisionError "float division by zero")
  else Ok (a / b)%float.

(** [x ** 2] on a float is the C library's [pow(x, 2.0)], modelled by
    the correctly rounded product; CPython raises [OverflowError] when
    a finite base overflows. *)
Definition pow2 (x : float) : result float :=
  let r := (x * x)%float in
  if PrimFloat.is_finite x && PrimFloat.is_infinity r
  then Raise (OverflowError "(34, 'Numerical result out of range')")
  else Ok r.

(** [int(x)] for a float: truncation toward zero. *)
Definition int_of_float (x : float) : result Z :=
  match Prim2SF x with
  | S754_zero _ => Ok 0
  | S754_infinity _ =>
      Raise (OverflowError "cannot convert float infinity to integer")
  | S754_nan => Raise (ValueError "cannot convert float NaN to integer")
  | S754_finite s m e =>
      let v := if 0 <=? e then Z.shiftl (Z.pos m) e
               else Z.shiftr (Z.pos m) (- e) in
      Ok (if s then - v else v)
  end.


(** [round(x)] for a finite float: nearest integer, ties to even.  Not
    used by the sources; the specification's wording of the aggregate
    score refers to it. *)
Definition round_half_even (x : float) : option Z :=
  match Prim2SF x with
  | S754_zero _ => Some 0
  | S754_infinity _ | S754_nan => None
  | S754_finite s m e =>
      let v :=
        if 0 <=? e then Z.shiftl (Z.pos m) e
        else
          let d := Z.shiftl 1 (- e) in
          let q := Z.pos m / d in
          let r := Z.pos m mod d in
          match 2 * r ?= d with
          | Lt => q
          | Gt => q + 1
          | Eq => if Z.even q then q else q + 1
          end in
      Some (if s then - v else v)
  end.

(** [sum(xs)] over floats: the accumulator starts at the int [0] and
    adds left to right.  (CPython 3.12 carries a compensation term as
    well; the two agree wherever the partial sums are exact, as they
    are in every sum evaluated below.) *)
Definition sum (xs : list float) : float :=
  fold_left (fun acc x => (acc + x)%float) xs 0%float.

(** *** Strings *)

(** [str.lower] on the ASCII range. *)
Definition lower_ascii (c : ascii) : ascii :=
  let n := N_of_ascii c in
  if ((65 <=? n) && (n <=? 90))%N then ascii_of_N (n + 32) else c.

Fixpoint lower (s : string) : string :=
  match s with
  | EmptyString => EmptyString
  | String c t => String (lower_ascii c) (lower t)
  end.

(** [needle in hay] for strings. *)
Fixpoint contains (needle hay : string) : bool :=
  if String.prefix needle hay then true
  else match hay with
       | EmptyString => false
       | String _ t => contains needle t
       end.

(** Truthiness of an optional string: [None] and [""] are falsy. *)
Definition truthy (s : option string) : bool :=
  match s with
  | None | Some EmptyString => false
  | Some (String _ _) => true
  end.

(** [d.get(k, dflt)]. *)
Definition get {V} (d : gmap string V) (k : string) (dflt : V) : V :=
  default dflt (d !! k).

End Py.

(** ** [services/food_recognition_service.py] *)
Module FoodRecognition.
Import Py.

(** One value of the food table: [calories], [protein], [carbs], [fat],
    [fiber], [vitamins], [confidence_threshold]. *)
Record FoodRecord : Type := {
  calories : num;
  protein : num;
  carbs : num;
  fat : num;
  fiber : num;
  vitamins : list string;
  confidence_threshold : num
}.

(** [_load_food_database]: the dict literal, entry for entry. *)
Definition _load_food_database : gmap string FoodRecord :=
  list_to_map [
    ("apple"%string,
     {| calories := Int 52; protein := Float 0.3; carbs := Float 13.8;
        fat := Float 0.2; fiber := Float 2.4;
        vitamins := ["C"; "K"]%string; confidence_threshold := Float 0.8 |});
    ("banana"%string,
     {| calories := Int 89; protein := Float 1.1; carbs := Float 22.8;
        fat := Float 0.3; fiber := Float 2.6;
        vitamins := ["B6"; "C"]%string; confidence_threshold := Float 0.8 |});
    ("chicken_breast"%string,
     {| calories := Int 165; protein := Int 31; carbs := Int 0;
        fat := Float 3.6; fiber := Int 0;
        vitamins := ["B6"; "B12"]%string; confidence_threshold := Float 0.7 |});
    ("salmon"%string,
     {| calories := Int 208; protein := Int 25; carbs := Int 0;
        fat := Int 12; fiber := Int 0;
        vitamins := ["B12"; "D"]%string; confidence_threshold := Float 0.7 |});
    ("rice"%string,
     {| calories := Int 130; protein := Float 2.7; carbs := Int 28;
        fat := Float 0.3; fiber := Float 0.4;
        vitamins := ["B1"; "B3"]%string; confidence_threshold := Float 0.8 |});
    ("broccoli"%string,
     {| calories := Int 34; protein := Float 2.8; carbs := Float 6.6;
        fat := Float 0.4; fiber := Float 2.6;
        vitamins := ["C"; "K"]%string; confidence_threshold := Float 0.8 |});
    ("pizza"%string,
     {| calories := Int 266; protein := Int 11; carbs := Int 33;
        fat := Int 10; fiber := Float 2.3;
        vitamins := ["B12"; "D"]%string; confidence_threshold := Float 0.9 |});
    ("salad"%string,
     {| calories := Int 20; protein := Int 2; carbs := Int 4;
        fat := Float 0.2; fiber := Float 1.5;
        vitamins := ["A"; "C"]%string; confidence_threshold := Float 0.6 |})
  ].

(** The service object: [self.food_database], set once in [__init__]. *)
Record FoodRecognitionService : Type := {
  food_database : gmap string FoodRecord
}.

Definition __init__ : FoodRecognitionService :=
  {| food_database := _load_food_database |}.

(** [_calculate_health_score]: the four [if]/[elif] blocks update
    [score] in turn; the result is [max(0, min(100, score))]. *)
Definition _calculate_health_score (nutrition_info : FoodRecord) : Z :=
  let score := 100 in
  let score :=
    if gt (calories nutrition_info) (Int 300) then score - 20
    else if gt (calories nutrition_info) (Int 200) then score - 10
    else score in
  let score :=
    if gt (protein nutrition_info) (Int 20) then score + 10
    else if gt (protein nutrition_info) (Int 10) then score + 5
    else score in
  let score :=
    if gt (fat nutrition_info) (Int 15) then score - 15
    else if gt (fat nutrition_info) (Int 10) then score - 10
    else score in
  let score :=
    if gt (fiber nutrition_info) (Int 5) then score + 10
    else if gt (fiber nutrition_info) (Int 2) then score + 5
    else score in
  Z.max 0 (Z.min 100 score).

(** [_get_health_benefits] and [_get_preparation_tips]: static tables
    read with [.get(food_name, default)]. *)
Definition _get_health_benefits (food_name : string) : list string :=
  let benefits_map : gmap string (list string) := list_to_map [
    ("apple", ["Rich in fiber"; "Contains antioxidants";
               "Supports heart health"]);
    ("banana", ["High in potassium"; "Good source of vitamin B6";
                "Supports digestion"]);
    ("chicken_breast", ["High-quality protein"; "Low in fat";
                        "Rich in B vitamins"]);
    ("salmon", ["High in omega-3 fatty acids"; "Excellent protein source";
                "Rich in vitamin D"]);
    ("broccoli", ["High in vitamin C"; "Contains antioxidants";
                  "Supports immune system"])
  ]%string in
  get benefits_map food_name ["Nutritious food"%string].

Definition _get_preparation_tips (food_name : string) : list string :=
  let tips_map : gmap string (list string) := list_to_map [
    ("chicken_breast", ["Cook to internal temperature of 165°F";
                        "Let rest before slicing"]);
    ("salmon", ["Cook until flaky"; "Don't overcook"]);
    ("broccoli", ["Steam for 3-5 minutes"; "Keep bright green color"]);
    ("rice", ["Use 2:1 water to rice ratio"; "Let steam after cooking"])
  ]%string in
  get tips_map food_name ["Enjoy fresh"%string].

(** The dict [get_nutrition_info] returns. *)
Record NutritionInfo : Type := {
  food_name : string;
  nutrition : FoodRecord;
  health_benefits : list string;
  preparation_tips : list string
}.

(** [get_nutrition_info]: the table is read at [food_name.lower()]; a
    missing entry raises [ValueError].  (Every [FoodRecord] is a
    non-empty dict, so [not food_info] holds exactly for [None].) *)
Definition get_nutrition_info (self : FoodRecognitionService)
    (name : string) : result NutritionInfo :=
  match food_database self !! lower name with
  | None =>
      Raise (ValueError ("Food '" +:+ name +:+ "' not found in database"))
  | Some food_info =>
      Ok {| food_name := name;
            nutrition := food_info;
            health_benefits := _get_health_benefits name;
            preparation_tips := _get_preparation_tips name |}
  end.

(** The specification's table of deltas, written from its words:
    >300 kcal −20, >200 kcal −10; >20 g protein +10, >10 g +5;
    >15 g fat −15, >10 g −10; >5 g fiber +10, >2 g +5. *)
Definition delta (x : num) (hi : Z) (dhi : Z) (lo : Z) (dlo : Z) : Z :=
  if gt x (Int hi) then dhi else if gt x (Int lo) then dlo else 0.

Definition documented_health_score (r : FoodRecord) : Z :=
  Z.max 0 (Z.min 100
    (100 + delta (calories r) 300 (-20) 200 (-10)
         + delta (protein r) 20 10 10 5
         + delta (fat r) 15 (-15) 10 (-10)
         + delta (fiber r) 5 10 2 5)).

(** The record of the specification's worked example:
    calories=266, protein=11, fat=10, fiber=2.3 (the table's pizza). *)
Definition example_record : FoodRecord :=
  {| calories := Int 266; protein := Int 11; carbs := Int 33;
     fat := Int 10; fiber := Float 2.3;
     vitamins := ["B12"; "D"]%string; confidence_threshold := Float 0.9 |}.

End FoodRecognition.

(** ** [services/risk_forecasting_service.py] *)
Module RiskForecasting.
Import Py.

(** The [health_metrics] dict, restricted to the keys the embedded
    functions read; [None] is an absent key.  The request model declares
    [weight] and [height] as [float] and the pressure as [int]. *)
Record HealthMetrics : Type := {
  weight : option float;
  height : option float;
  blood_pressure_systolic : option Z
}.

(** The [lifestyle_data] dict, likewise: [age] is an [int], the activity
    level a string. *)
Record LifestyleData : Type := {
  age : option Z;
  physical_activity_level : option string
}.

(** [_mock_risk_calculation]: [base_risk] starts at [0.1] and each
    factor adds to it in source order; the BMI is
    [weight / ((height / 100) ** 2)]. *)
Definition _mock_risk_calculation (risk_type : string)
    (health_metrics : HealthMetrics) (lifestyle_data : LifestyleData)
  : result num :=
  let base_risk := 0.1%float in
  let age := default 40 (age lifestyle_data) in
  let base_risk :=
    if age >? 65 then (base_risk + 0.1)%float
    else if age >? 45 then (base_risk + 0.05)%float
    else base_risk in
  let bp_systolic := default 120 (blood_pressure_systolic health_metrics) in
  let base_risk :=
    if bp_systolic >? 140 then (base_risk + 0.15)%float
    else if bp_systolic >? 130 then (base_risk + 0.08)%float
    else base_risk in
  let weight := default 70%float (weight health_metrics) in
  let height := default 170%float (height health_metrics) in
  h ← truediv height 100%float;
  h2 ← pow2 h;
  bmi ← truediv weight h2;
  let base_risk :=
    if PrimFloat.ltb 30 bmi then (base_risk + 0.12)%float
    else if PrimFloat.ltb 25 bmi then (base_risk + 0.06)%float
    else base_risk in
  let activity_level :=
    default "moderate"%string (physical_activity_level lifestyle_data) in
  let base_risk :=
    if String.eqb activity_level "sedentary" then (base_risk + 0.08)%float
    else if String.eqb activity_level "very_active"
            || String.eqb activity_level "active"
         then (base_risk - 0.05)%float
    else base_risk in
  Ok (max (Int 0) (min (Int 1) (Float base_risk))).

(** The BMI sub-computation on its own, as the source evaluates it. *)
Definition bmi_of (health_metrics : HealthMetrics) : result float :=
  let weight := default 70%float (weight health_metrics) in
  let height := default 170%float (height health_metrics) in
  h ← truediv height 100%float;
  h2 ← pow2 h;
  truediv weight h2.

(** [_calculate_overall_health_score]: [risk_predictions] is the dict
    in insertion order; [avg_risk = sum(values) / len],
    [health_score = int((1 - avg_risk) * 100)], then the clamp.  The
    values are floats (an int [0] or [1] left by a clamp adds as its
    float). *)
Definition avg_risk (risk_predictions : list (string * float))
  : result float :=
  truediv (sum (map snd risk_predictions))
          (float_of_Z (Z.of_nat (length risk_predictions))).



Definition _calculate_overall_health_score
    (risk_predictions : list (string * float)) : result Z :=
  avg_risk ← avg_risk risk_predictions;
  health_score ← int_of_float ((1 - avg_risk) * 100)%float;
  Ok (Z.max 0 (Z.min 100 health_score)).





Definition clamp01 (x : float) : num :=
  max (Int 0) (min (Int 1) (Float x)).


(** The specification's worked example: age=70, systolic=150,
    weight 98 kg, height 175 cm (BMI 32), sedentary. *)
Definition example_metrics : HealthMetrics :=
  {| weight := Some 98%float; height := Some 175%float;
     blood_pressure_systolic := Some 150 |}.

Definition example_lifestyle : LifestyleData :=
  {| age := Some 70; physical_activity_level := Some "sedentary"%string |}.


End RiskForecasting.

(** ** The numpy operations of [_extract_features], on lists of floats *)
Module np.
Import Py.

(** [np.mean]: the sum over the length.  (numpy fixes no summation
    order; the sums evaluated below are exact in any order.) *)
Definition mean (data : list float) : float :=
  (sum data / float_of_Z (Z.of_nat (length data)))%float.

(** [np.std]: the root of the mean squared deviation. *)
Definition std (data : list float) : float :=
  let m := mean data in
  PrimFloat.sqrt (mean (map (fun x => ((x - m) * (x - m))%float) data)).

(** [np.max] and [np.min] propagate a NaN. *)
Definition pick (better : float -> float -> bool) (a x : float) : float :=
  if PrimFloat.is_nan a then a
  else if PrimFloat.is_nan x then x
  else if better x a then x else a.

Definition max (data : list float) : float :=
  match data with
  | [] => nan
  | x :: l => fold_left (pick (fun x a => PrimFloat.ltb a x)) l x
  end.

Definition min (data : list float) : float :=
  match data with
  | [] => nan
  | x :: l => fold_left (pick PrimFloat.ltb) l x
  end.

(** [a ** 2] and [np.sqrt], element by element. *)
Definition square (a : list float) : list float :=
  map (fun x => (x * x)%float) a.

Definition sqrt (a : list float) : list float := map PrimFloat.sqrt a.

(** [a + b] on one-dimensional arrays: equal lengths add pointwise, a
    length-1 operand is broadcast, anything else raises. *)
Definition add (a b : list float) : result (list float) :=
  if (length a =? length b)%nat
  then Ok (zip_with (fun x y => (x + y)%float) a b)
  else match a, b with
       | [x], _ => Ok (map (fun y => (x + y)%float) b)
       | _, [y] => Ok (map (fun x => (x + y)%float) a)
       | _, _ =>
           Raise (ValueError
             ("operands could not be broadcast together with shapes ("
              +:+ pretty (length a) +:+ ",) (" +:+ pretty (length b)
              +:+ ",) "))
       end.

End np.

(** ** [services/activity_detection_service.py] *)
Module ActivityDetection.
Import Py.

(** [self.scaler] and [self.model] once fitted: library objects.
    [n_features_in] is the number of columns [scaler.fit] saw;
    [scaler.transform] refuses a row of any other width before it
    scales.  What the scaler and the forest compute is left open. *)
Record Classifier : Type := {
  n_features_in : nat;
  scale : list float -> list float;
  predict_proba : list float -> result (list float)
}.

Definition scaler_transform (m : Classifier) (features : list float)
  : result (list float) :=
  if (length features =? n_features_in m)%nat then Ok (scale m features)
  else Raise (ValueError
         ("X has " +:+ pretty (length features)
          +:+ " features, but StandardScaler is expecting "
          +:+ pretty (n_features_in m) +:+ " features as input.")).

(** The service object. [model] is [None] when [_initialize_model]
    failed. *)
Record ActivityDetectionService : Type := {
  activities : list string;
  model : option Classifier
}.

Definition the_activities : list string :=
  ["walking"; "running"; "cycling"; "swimming"; "sitting";
   "standing"; "lying_down"; "stairs_up"; "stairs_down"; "jumping"]%string.

(** [_generate_mock_training_data]: the training matrix has
    [n_features = 12] columns. *)
Definition n_features : nat := 12.

(** [__init__] when [_initialize_model] succeeds: the scaler and the
    forest are fitted on the 12-column training matrix. *)
Definition __init__ (scale : list float -> list float)
    (predict_proba : list float -> result (list float))
  : ActivityDetectionService :=
  {| activities := the_activities;
     model := Some {| n_features_in := n_features;
                      scale := scale;
                      predict_proba := predict_proba |} |}.

(** The dict [detect_activity] returns. *)
Record ActivityResult : Type := {
  predicted_activity : string;
  confidence : float;
  top_predictions : list (string * float);
  duration_seconds : Z;
  intensity_level : string;
  estimated_calories : float;
  features_extracted : nat;
  processing_time_ms : Z
}.

(** The four statistics of one axis, or four zeros when the key is
    absent or its list is empty. *)
Definition axis_features (data : gmap string (list float)) (axis : string)
  : list float :=
  match data !! axis with
  | Some (x :: l) =>
      let data := x :: l in [np.mean data; np.std data; np.max data; np.min data]
  | _ => [0; 0; 0; 0]%float
  end.

Definition nonempty (data : gmap string (list float)) (axis : string) : bool :=
  match data !! axis with
  | Some (_ :: _) => true
  | _ => false
  end.

(** The magnitude array [sqrt(x**2 + y**2 + z**2)]. *)
Definition acc_magnitude (accelerometer_data : gmap string (list float))
  : result (list float) :=
  let x := get accelerometer_data "x" [] in
  let y := get accelerometer_data "y" [] in
  let z := get accelerometer_data "z" [] in
  xy ← np.add (np.square x) (np.square y);
  xyz ← np.add xy (np.square z);
  Ok (np.sqrt xyz).

(** [_extract_features]: accelerometer x, y, z (4 values each), then
    gyroscope x, y, z (4 each), then magnitude mean and std. *)
Definition _extract_features
    (accelerometer_data gyroscope_data : gmap string (list float))
    (duration : Z) : result (list float) :=
  let features := [] in
  let features :=
    features ++ flat_map (axis_features accelerometer_data) ["x"; "y"; "z"]%string in
  let features :=
    features ++ flat_map (axis_features gyroscope_data) ["x"; "y"; "z"]%string in
  if nonempty accelerometer_data "x" && nonempty accelerometer_data "y"
     && nonempty accelerometer_data "z"
  then
    acc_magnitude ← acc_magnitude accelerometer_data;
    Ok (features ++ [np.mean acc_magnitude; np.std acc_magnitude])
  else Ok (features ++ [0; 0]%float).

(** The threshold ladder, as a function of the two numbers it tests. *)
Definition ladder (mean std : float) : string * float :=
  if PrimFloat.ltb 0.5 mean && PrimFloat.ltb 0.3 std
  then ("running"%string, 0.85%float)
  else if PrimFloat.ltb 0.2 mean && PrimFloat.ltb 0.1 std
  then ("walking"%string, 0.80%float)
  else if PrimFloat.ltb mean 0.1 && PrimFloat.ltb std 0.05
  then ("sitting"%string, 0.90%float)
  else ("standing"%string, 0.75%float).

(** [_mock_prediction]: the ladder on [features[0]] and [features[1]]
    (zero when the list is too short). *)
Definition _mock_prediction (features : list float) : string * float :=
  let acc_magnitude_mean :=
    if (0 <? length features)%nat then nth 0 features 0%float else 0%float in
  let acc_magnitude_std :=
    if (1 <? length features)%nat then nth 1 features 0%float else 0%float in
  ladder acc_magnitude_mean acc_magnitude_std.

(** [_calculate_intensity]. *)
Definition _calculate_intensity (features : list float) : string :=
  if (length features <? 2)%nat then "unknown"%string
  else
    let acc_magnitude_mean := nth 0 features 0%float in
    let acc_magnitude_std := nth 1 features 0%float in
    if PrimFloat.ltb 0.5 acc_magnitude_mean || PrimFloat.ltb 0.4 acc_magnitude_std
    then "high"%string
    else if PrimFloat.ltb 0.2 acc_magnitude_mean
            || PrimFloat.ltb 0.15 acc_magnitude_std
    then "moderate"%string
    else "low"%string.

(** [activity_probs.sort(key=lambda x: x[1], reverse=True)]: a stable
    sort by decreasing probability. *)
Fixpoint insert_desc (p : string * float) (l : list (string * float))
  : list (string * float) :=
  match l with
  | [] => [p]
  | q :: t =>
      if PrimFloat.ltb (snd p) (snd q) then q :: insert_desc p t
      else p :: q :: t
  end.

Definition sort_desc (l : list (string * float)) : list (string * float) :=
  fold_right insert_desc [] l.

Section Service.

(** [round(x, 1)], Python's correctly rounded decimal rounding of a
    float: a builtin kept abstract. *)
Variable round1 : float -> float.

(** [_estimate_calories]. *)
Definition _estimate_calories (activity : string) (duration : Z)
    (intensity : string) : float :=
  let base_calories : gmap string float := list_to_map [
    ("walking", 3.5); ("running", 8.0); ("cycling", 6.0);
    ("swimming", 7.0); ("sitting", 1.0); ("standing", 1.2);
    ("lying_down", 0.8); ("stairs_up", 9.0); ("stairs_down", 4.0);
    ("jumping", 10.0) ]%string%float in
  let base_rate := get base_calories activity 2.0%float in
  let intensity_multiplier :=
    get (list_to_map [("low", 0.7); ("moderate", 1.0); ("high", 1.3)]%string%float)
        intensity 1.0%float in
  let calories_per_minute := (base_rate * intensity_multiplier)%float in
  let total_calories :=
    (calories_per_minute * (float_of_Z duration / 60))%float in
  round1 total_calories.

(** The body of [detect_activity]'s [try]. [rnd] is the value
    [random.randint(50, 200)] returns in this call. *)
Definition detect_activity_body (self : ActivityDetectionService)
    (accelerometer_data gyroscope_data : gmap string (list float))
    (duration : Z) (rnd : Z) : result ActivityResult :=
  features ← _extract_features accelerometer_data gyroscope_data duration;
  prediction ←
    match model self with
    | Some m =>
        features_scaled ← scaler_transform m features;
        probabilities ← predict_proba m features_scaled;
        let activity_probs := sort_desc (zip (activities self) probabilities) in
        match activity_probs with
        | [] => Raise (IndexError "list index out of range")
        | (predicted_activity, confidence) :: _ =>
            Ok (predicted_activity, confidence, take 3 activity_probs)
        end
    | None =>
        let '(predicted_activity, confidence) := _mock_prediction features in
        Ok (predicted_activity, confidence, [(predicted_activity, confidence)])
    end;
  let '(predicted_activity, confidence, top_predictions) := prediction in
  let intensity := _calculate_intensity features in
  let calories_burned := _estimate_calories predicted_activity duration intensity in
  Ok {| predicted_activity := predicted_activity;
        confidence := confidence;
        top_predictions := top_predictions;
        duration_seconds := duration;
        intensity_level := intensity;
        estimated_calories := calories_burned;
        features_extracted := length features;
        processing_time_ms := rnd |}.

(** [detect_activity]: any exception of the body is re-raised as
    [Exception("Activity detection failed: ...")]. *)
Definition detect_activity (self : ActivityDetectionService)
    (accelerometer_data gyroscope_data : gmap string (list float))
    (duration : Z) (user_id : option string) (rnd : Z)
  : result ActivityResult :=
  try_except
    (detect_activity_body self accelerometer_data gyroscope_data duration rnd)
    (fun e => Raise (Exception_ ("Activity detection failed: " +:+ str_exn e))).

End Service.

End ActivityDetection.

(** ** [routes/activity_detection.py] *)
Module ActivityRoutes.
Import Py.

(** The request models. [ActivityData] also declares a [user_id]; it is
    named [data_user_id] here, next to [ActivityRequest]'s. *)
Record ActivityData : Type := {
  accelerometer_x : list float;
  accelerometer_y : list float;
  accelerometer_z : list float;
  gyroscope_x : list float;
  gyroscope_y : list float;
  gyroscope_z : list float;
  timestamp : list float;
  data_user_id : option string
}.

Record ActivityRequest : Type := {
  data : ActivityData;
  duration_seconds : Z;
  user_id : option string
}.

(** The dicts built for the service call. *)
Definition accelerometer_data (request : ActivityRequest)
  : gmap string (list float) :=
  list_to_map [("x"%string, accelerometer_x (data request));
               ("y"%string, accelerometer_y (data request));
               ("z"%string, accelerometer_z (data request))].

Definition gyroscope_data (request : ActivityRequest)
  : gmap string (list float) :=
  list_to_map [("x"%string, gyroscope_x (data request));
               ("y"%string, gyroscope_y (data request));
               ("z"%string, gyroscope_z (data request))].

(** The success envelope: [success] and, under the key [data], the
    payload. *)
Record Envelope (A : Type) : Type := {
  success : bool;
  payload : A
}.
Arguments success {A} _.
Arguments payload {A} _.

(** One entry of the batch results: [{"sample_id": i, "result": ...}]
    or [{"sample_id": i, "error": ...}]. *)
Inductive BatchEntry : Type :=
| WithResult (sample_id : nat) (result : ActivityDetection.ActivityResult)
| WithError (sample_id : nat) (error : string).

Record BatchData : Type := {
  results : list BatchEntry;
  total_samples : nat
}.

Definition sample_id_of (e : BatchEntry) : nat :=
  match e with WithResult i _ | WithError i _ => i end.

Definition has_result (e : BatchEntry) : bool :=
  match e with WithResult _ _ => true | WithError _ _ => false end.

Definition has_error (e : BatchEntry) : bool :=
  match e with WithResult _ _ => false | WithError _ _ => true end.

Section Routes.

Variable round1 : float -> float.

(** The module-level [activity_service]. *)
Variable activity_service : ActivityDetection.ActivityDetectionService.

Definition call_service (request : ActivityRequest) (rnd : Z)
  : result ActivityDetection.ActivityResult :=
  ActivityDetection.detect_activity round1 activity_service
    (accelerometer_data request) (gyroscope_data request)
    (duration_seconds request) (user_id request) rnd.

(** [detect_activity]: the length check and the service call sit in one
    [try]; its [except Exception] turns whatever was raised, the 400 of
    the check included, into a 500. *)
Definition detect_activity (request : ActivityRequest) (rnd : Z)
  : result (Envelope ActivityDetection.ActivityResult) :=
  try_except
    (_ ← (if (length (accelerometer_x (data request)) <? 10)%nat
          then Raise (HTTPException 400 "Insufficient sensor data")
          else Ok tt);
     result ← call_service request rnd;
     Ok {| success := true; payload := result |})
    (fun e =>
       Raise (HTTPException 500
                ("Activity detection failed: " +:+ str_exn e))).

(** [detect_activity_batch]: one entry per request, in order; the inner
    [try] keeps a failure inside its entry.  [rnd i] is the random draw
    of the [i]-th service call. *)
Definition batch_entry (rnd : nat -> Z) (i : nat) (request : ActivityRequest)
  : BatchEntry :=
  match call_service request (rnd i) with
  | Ok result => WithResult i result
  | Raise e => WithError i (str_exn e)
  end.

Definition detect_activity_batch (requests : list ActivityRequest)
    (rnd : nat -> Z) : result (Envelope BatchData) :=
  try_except
    (let results := imap (batch_entry rnd) requests in
     Ok {| success := true;
           payload := {| results := results;
                         total_samples := length results |} |})
    (fun e =>
       Raise (HTTPException 500 ("Batch detection failed: " +:+ str_exn e))).

End Routes.

(** A request with [n] samples per accelerometer axis, every sample
    [(0, 0, 1)] (a device at rest), and no gyroscope. *)
Definition at_rest (n : nat) : ActivityRequest :=
  {| data := {| accelerometer_x := repeat 0%float n;
                accelerometer_y := repeat 0%float n;
                accelerometer_z := repeat 1%float n;
                gyroscope_x := []; gyroscope_y := []; gyroscope_z := [];
                timestamp := repeat 0%float n;
                data_user_id := None |};
     duration_seconds := 60;
     user_id := None |}.

(** The service left without a classifier. *)
Definition fallback_service : ActivityDetection.ActivityDetectionService :=
  {| ActivityDetection.activities := ActivityDetection.the_activities;
     ActivityDetection.model := None |}.

End ActivityRoutes.

(** ** [services/chat_service.py] *)
Module Chat.
Import Py.

(** One stored message: [message], [is_user], [timestamp], [user_id].
    The timestamp is the clock reading whose [isoformat()] is stored. *)
Module Message.
Record t : Type := {
  message : string;
  is_user : bool;
  timestamp : Z;
  user_id : string
}.
End Message.

(** One value of [self.conversations]. *)
Module Conversation.
Record t : Type := {
  user_id : string;
  context : string;
  messages : list Message.t;
  created_at : Z;
  last_activity : Z
}.
End Conversation.

(** One value of [self.contexts]. *)
Module ContextInfo.
Record t : Type := {
  description : string;
  personality : string;
  expertise : list string
}.
End ContextInfo.

(** The [context] dict of a generated response. *)
Module ContextMeta.
Record t : Type := {
  context_type : string;
  personality : string;
  expertise : list string
}.
End ContextMeta.

(** The dict [_generate_response] returns. *)
Module Response.
Record t : Type := {
  message : string;
  suggestions : list string;
  context : ContextMeta.t
}.
End Response.

(** The dict [process_message] returns. *)
Module Reply.
Record t : Type := {
  message : string;
  conversation_id : string;
  suggestions : list string;
  context : ContextMeta.t
}.
End Reply.

(** [self.contexts], fixed in [__init__]. *)
Definition health_coaching_info : ContextInfo.t :=
  {| ContextInfo.description := "General health and wellness coaching";
     ContextInfo.personality := "supportive and knowledgeable";
     ContextInfo.expertise :=
       ["nutrition"; "exercise"; "sleep"; "stress_management"]%string |}.

Definition contexts : gmap string ContextInfo.t :=
  list_to_map [
    ("health_coaching"%string, health_coaching_info);
    ("diabetes_management"%string,
     {| ContextInfo.description := "Specialized diabetes care and management";
        ContextInfo.personality := "clinical and precise";
        ContextInfo.expertise :=
          ["blood_glucose"; "medication"; "diet"; "complications"]%string |});
    ("cardiovascular_health"%string,
     {| ContextInfo.description :=
          "Heart health and cardiovascular disease prevention";
        ContextInfo.personality := "encouraging and evidence-based";
        ContextInfo.expertise :=
          ["blood_pressure"; "cholesterol"; "exercise"; "diet"]%string |});
    ("mental_wellness"%string,
     {| ContextInfo.description :=
          "Mental health and emotional well-being support";
        ContextInfo.personality := "empathetic and understanding";
        ContextInfo.expertise :=
          ["stress"; "anxiety"; "depression"; "mindfulness"]%string |})
  ].

(** The canned responses of [_generate_contextual_response], by
    bucket, in source order. *)
Definition workout_responses : list string :=
  ["I'd be happy to help with your workout routine! Based on your health profile, I recommend starting with low-impact cardio exercises like walking or swimming. Would you like me to create a personalized workout plan for you?";
   "Great question about exercise! For optimal health, aim for at least 150 minutes of moderate-intensity activity per week. I can help you design a program that fits your fitness level and goals.";
   "Exercise is crucial for maintaining good health! Let's discuss your current fitness level and any health conditions to create the best workout plan for you."]%string.

Definition diet_responses : list string :=
  ["Nutrition is a key pillar of good health! I recommend focusing on whole foods like vegetables, lean proteins, and complex carbohydrates. What specific dietary goals are you working towards?";
   "Great question about nutrition! A balanced diet with plenty of fruits, vegetables, and lean proteins can significantly improve your health. I can help you track your meals and suggest healthy alternatives.";
   "Food choices have a huge impact on your health! Let's discuss your current eating habits and create a plan that works for your lifestyle and health goals."]%string.

Definition heart_responses : list string :=
  ["Managing cardiovascular health is crucial! Regular exercise, a balanced diet, and stress management can help maintain healthy blood pressure. I recommend monitoring your readings and consulting with your healthcare provider.";
   "Heart health is so important! Lifestyle changes like reducing sodium, increasing physical activity, and managing stress can make a big difference. Would you like tips for heart-healthy lifestyle changes?";
   "Your cardiovascular health is a priority! I can help you understand your risk factors and create a plan to improve your heart health through diet, exercise, and lifestyle modifications."]%string.

Definition sleep_responses : list string :=
  ["Quality sleep is essential for overall health! Try maintaining a consistent sleep schedule, creating a relaxing bedtime routine, and avoiding screens before bed. I can help you track your sleep patterns and suggest improvements.";
   "Sleep is when your body repairs and rejuvenates! Aim for 7-9 hours of quality sleep per night. Let's discuss your current sleep habits and create a plan for better rest.";
   "Good sleep is foundational to good health! I can help you optimize your sleep environment and routine. How many hours of sleep are you currently getting?"]%string.

Definition stress_responses : list string :=
  ["Mental wellness is just as important as physical health! Consider incorporating mindfulness practices, deep breathing exercises, or gentle yoga into your routine. I'm here to support your mental health journey.";
   "Stress management is crucial for overall well-being! I can teach you relaxation techniques and help you develop healthy coping strategies. What's causing you the most stress right now?";
   "Your mental health matters! Let's work together to develop stress management techniques that fit your lifestyle. Remember, it's okay to seek professional help when needed."]%string.

Definition weight_responses : list string :=
  ["Healthy weight management involves a combination of balanced nutrition and regular physical activity. Remember, sustainable changes work best! I can help you set realistic goals and track your progress.";
   "Weight management is about creating healthy habits that last! Focus on nourishing your body with whole foods and staying active. What's your current approach to weight management?";
   "Let's create a sustainable plan for healthy weight management! I'll help you set realistic goals and develop habits that support your long-term health and well-being."]%string.

Definition diabetes_responses : list string :=
  ["Diabetes management requires careful attention to diet, exercise, and blood glucose monitoring. I can help you understand how different foods and activities affect your blood sugar levels.";
   "Managing diabetes effectively involves balancing medication, diet, and lifestyle. Let's create a comprehensive plan that helps you maintain stable blood glucose levels.";
   "I'm here to support your diabetes management journey! Together, we can develop strategies for healthy eating, regular exercise, and effective blood glucose monitoring."]%string.

Definition default_responses : list string :=
  ["I'm here to help with your health and wellness journey! I can provide guidance on exercise, nutrition, sleep, stress management, and more. What specific aspect of your health would you like to focus on today?";
   "Your health is my priority! I can assist with personalized advice on fitness, nutrition, mental wellness, and chronic disease management. What would you like to work on together?";
   "I'm your personal health coach, ready to support you! Whether it's improving your fitness, optimizing your nutrition, or managing stress, I'm here to help you achieve your health goals."]%string.

(** The bucket a lower-cased message falls in: the [if]/[elif] chain. *)
Definition responses_for (message : string) : list string :=
  if contains "workout" message || contains "exercise" message
  then workout_responses
  else if contains "diet" message || contains "food" message
          || contains "meal" message
  then diet_responses
  else if contains "blood pressure" message || contains "heart" message
  then heart_responses
  else if contains "sleep" message || contains "insomnia" message
  then sleep_responses
  else if contains "stress" message || contains "anxiety" message
  then stress_responses
  else if contains "weight" message || contains "lose" message
          || contains "gain" message
  then weight_responses
  else if contains "diabetes" message
  then diabetes_responses
  else default_responses.

(** [_generate_suggestions]. *)
Definition _generate_suggestions (message context : string) : list string :=
  let suggestions :=
    if contains "workout" message || contains "exercise" message
    then ["Create a personalized workout plan";
          "Learn about different exercise types";
          "Track your fitness progress"]%string
    else if contains "diet" message || contains "food" message
    then ["Get nutrition analysis for your meals";
          "Learn about healthy food choices";
          "Create a meal planning strategy"]%string
    else if contains "sleep" message
    then ["Improve your sleep hygiene";
          "Track your sleep patterns";
          "Learn relaxation techniques"]%string
    else if contains "stress" message
    then ["Practice mindfulness exercises";
          "Learn stress management techniques";
          "Create a self-care routine"]%string
    else ["Set health goals";
          "Track your progress";
          "Get personalized recommendations"]%string in
  take 3 suggestions.

(** [str(uuid)]: 32 lower-case hexadecimal digits of the 128-bit value,
    grouped 8-4-4-4-12. *)
Definition hex_digit (n : N) : ascii :=
  if (n <? 10)%N then ascii_of_N (48 + n) else ascii_of_N (87 + n).

Fixpoint hex_digits (u : N) (count : nat) (rest : string) : string :=
  match count with
  | O => rest
  | S c => hex_digits (N.shiftr u 4) c (String (hex_digit (N.land u 15)) rest)
  end.

Definition str_uuid (u : N) : string :=
  hex_digits (N.shiftr u 96) 8
    (String "-" (hex_digits (N.shiftr u 80) 4
      (String "-" (hex_digits (N.shiftr u 64) 4
        (String "-" (hex_digits (N.shiftr u 48) 4
          (String "-" (hex_digits u 12 EmptyString)))))))).

(** The state of the service and of its surroundings: the conversation
    store, and [tick], the number of readings taken so far from the
    outside world (UUIDs, the clock, the random generator). *)
Record State : Type := {
  conversations : gmap string Conversation.t;
  tick : nat
}.

(** A method: it reads and writes the state, and returns or raises. *)
Definition M (A : Type) : Type := State -> result A * State.

#[global] Instance M_ret : MRet M := fun A a s => (Ok a, s).
#[global] Instance M_bind : MBind M := fun A B k m s =>
  match m s with
  | (Ok a, s') => k a s'
  | (Raise e, s') => (Raise e, s')
  end.

Definition raise {A} (e : exn) : M A := fun s => (Raise e, s).

Definition try_except_M {A} (body : M A) (handler : exn -> M A) : M A :=
  fun s =>
    match body s with
    | (Ok a, s') => (Ok a, s')
    | (Raise e, s') => handler e s'
    end.

Definition get_conversations : M (gmap string Conversation.t) :=
  fun s => (Ok (conversations s), s).

Definition put_conversations (c : gmap string Conversation.t) : M unit :=
  fun s => (Ok tt, {| conversations := c; tick := tick s |}).

Definition next_tick : M nat :=
  fun s => (Ok (tick s),
            {| conversations := conversations s; tick := S (tick s) |}).

(** The surroundings: the [k]-th reading is a UUID (its 128-bit value),
    a clock value or a random index, whichever the code asks for at
    that point. *)
Record Env : Type := {
  uuid4 : nat -> N;
  now : nat -> Z;
  randrange : nat -> nat
}.

Section Service.

Variable env : Env.

Definition uuid_uuid4 : M N := k ← next_tick; mret (uuid4 env k).

Definition datetime_now : M Z := k ← next_tick; mret (now env k).

(** [random.choice(seq)] on a non-empty list. *)
Definition random_choice (seq : list string) : M string :=
  k ← next_tick;
  mret (nth (randrange env k mod length seq)%nat seq EmptyString).

(** [start_conversation]. *)
Definition start_conversation (user_id context : string) : M string :=
  u ← uuid_uuid4;
  let conversation_id := str_uuid u in
  created_at ← datetime_now;
  last_activity ← datetime_now;
  conversations ← get_conversations;
  _ ← put_conversations
        (<[conversation_id :=
             {| Conversation.user_id := user_id;
                Conversation.context := context;
                Conversation.messages := [];
                Conversation.created_at := created_at;
                Conversation.last_activity := last_activity |}]>
           conversations);
  mret conversation_id.

(** [get_conversation_history]. *)
Definition get_conversation_history (conversation_id : string)
  : M (list Message.t) :=
  conversations ← get_conversations;
  match conversations !! conversation_id with
  | None => raise (ValueError "Conversation not found")
  | Some c => mret (Conversation.messages c)
  end.

(** [delete_conversation]. *)
Definition delete_conversation (conversation_id : string) : M unit :=
  conversations ← get_conversations;
  match conversations !! conversation_id with
  | Some _ => put_conversations (delete conversation_id conversations)
  | None => mret tt
  end.

(** [_store_message]: nothing happens for an unknown id; otherwise the
    message is appended and [last_activity] is set. *)
Definition _store_message (conversation_id message : string)
    (is_user : bool) (user_id : string) : M unit :=
  conversations ← get_conversations;
  match conversations !! conversation_id with
  | None => mret tt
  | Some c =>
      timestamp ← datetime_now;
      let messages :=
        Conversation.messages c ++
          [{| Message.message := message;
              Message.is_user := is_user;
              Message.timestamp := timestamp;
              Message.user_id := user_id |}] in
      last_activity ← datetime_now;
      put_conversations
        (<[conversation_id :=
             {| Conversation.user_id := Conversation.user_id c;
                Conversation.context := Conversation.context c;
                Conversation.messages := messages;
                Conversation.created_at := Conversation.created_at c;
                Conversation.last_activity := last_activity |}]>
           conversations)
  end.

(** [_generate_contextual_response]. *)
Definition _generate_contextual_response (message : string)
    (context_info : ContextInfo.t) : M string :=
  random_choice (responses_for message).

(** [_generate_response]. *)
Definition _generate_response (message context conversation_id : string)
  : M Response.t :=
  let message_lower := lower message in
  let context_info := get contexts context health_coaching_info in
  response ← _generate_contextual_response message_lower context_info;
  let suggestions := _generate_suggestions message_lower context in
  mret {| Response.message := response;
          Response.suggestions := suggestions;
          Response.context :=
            {| ContextMeta.context_type := context;
               ContextMeta.personality := ContextInfo.personality context_info;
               ContextMeta.expertise := ContextInfo.expertise context_info |} |}.

(** [process_message]: a falsy [conversation_id] ([None] or [""])
    starts a conversation; then the user message is stored, the
    response generated, and the response stored. *)
Definition process_message (message user_id context : string)
    (conversation_id : option string) : M Reply.t :=
  try_except_M
    (conversation_id ←
       (if truthy conversation_id then mret (default EmptyString conversation_id)
        else start_conversation user_id context);
     _ ← _store_message conversation_id message true user_id;
     response ← _generate_response message context conversation_id;
     _ ← _store_message conversation_id (Response.message response) false user_id;
     mret {| Reply.message := Response.message response;
             Reply.conversation_id := conversation_id;
             Reply.suggestions := Response.suggestions response;
             Reply.context := Response.context response |})
    (fun e => raise (Exception_ ("Chat processing failed: " +:+ str_exn e))).

End Service.

(** [ChatService()]: an empty store. *)
Definition init : State := {| conversations := ∅; tick := 0 |}.

(** The calls a client of the service can make. *)
Inductive Call : Type :=
| CallStart (user_id context : string)
| CallProcess (message user_id context : string)
              (conversation_id : option string)
| CallStore (conversation_id message : string) (is_user : bool)
            (user_id : string)
| CallHistory (conversation_id : string)
| CallDelete (conversation_id : string).

Definition exec (env : Env) (call : Call) (s : State) : State :=
  match call with
  | CallStart u c => snd (start_conversation env u c s)
  | CallProcess m u c o => snd (process_message env m u c o s)
  | CallStore i m b u => snd (_store_message env i m b u s)
  | CallHistory i => snd (get_conversation_history i s)
  | CallDelete i => snd (delete_conversation i s)
  end.

(** A call reaches [start_conversation] when it is one, or when it is a
    [process_message] with a falsy id. *)
Definition starts (call : Call) : bool :=
  match call with
  | CallStart _ _ => true
  | CallProcess _ _ _ o => negb (truthy o)
  | _ => false
  end.

(** The context supplied to [start_conversation], by the id it
    returned: a record kept beside the store. *)
Definition record_creation (env : Env) (call : Call) (s : State)
    (supplied : gmap string string) : gmap string string :=
  match call with
  | CallStart u c =>
      match fst (start_conversation env u c s) with
      | Ok cid => <[cid := c]> supplied
      | Raise _ => supplied
      end
  | CallProcess m u c o =>
      if truthy o then supplied
      else match fst (process_message env m u c o s) with
           | Ok reply => <[Reply.conversation_id reply := c]> supplied
           | Raise _ => supplied
           end
  | _ => supplied
  end.

Fixpoint run (env : Env) (calls : list Call) (s : State)
    (supplied : gmap string string) : State * gmap string string :=
  match calls with
  | [] => (s, supplied)
  | call :: rest =>
      run env rest (exec env call s) (record_creation env call s supplied)
  end.

(** One environment to run examples in. *)
Definition sample_env : Env :=
  {| uuid4 := fun k => (0x123e4567e89b42d3a456426614174000 + N.of_nat k)%N;
     now := fun k => 1700000000 + Z.of_nat k;
     randrange := fun k => k |}.

End Chat.

(* ================================================================== *)
(** * Part II.  Properties                                             *)
(* ================================================================== *)

(** ** Food recognition *)
Module FoodRecognitionSpec.
Import Py FoodRecognition.

(** The two-step [if]/[elif] of the source is the table's delta. *)
Lemma step_delta (x : num) (hi dhi lo dlo score : Z) :
  (if gt x (Int hi) then score + dhi
   else if gt x (Int lo) then score + dlo else score)
  = score + delta x hi dhi lo dlo.
Proof.
  unfold delta. destruct (gt x (Int hi)); [reflexivity|].
  destruct (gt x (Int lo)); lia.
Qed.

Lemma health_score_eq_documented (r : FoodRecord) :
  _calculate_health_score r = documented_health_score r.
Proof.
  unfold _calculate_health_score, documented_health_score.
  change (100 - 20) with (100 + -20). change (100 - 10) with (100 + -10).
  rewrite (step_delta (calories r) 300 (-20) 200 (-10) 100).
  rewrite (step_delta (protein r) 20 10 10 5).
  set (s2 := 100 + _ + _).
  replace (if gt (fat r) (Int 15) then s2 - 15
           else if gt (fat r) (Int 10) then s2 - 10 else s2)
    with (s2 + delta (fat r) 15 (-15) 10 (-10))
    by (rewrite <- step_delta; reflexivity).
  rewrite (step_delta (fiber r) 5 10 2 5).
  reflexivity.
Qed.

Lemma health_score_range (r : FoodRecord) :
  0 <= _calculate_health_score r <= 100.
Proof. unfold _calculate_health_score. lia. Qed.

(** C1, as the code has it: for every nutrition record the health score
    is the documented computation (100, plus the calorie, protein, fat
    and fiber deltas of the table, clamped to [0,100]), and for
    calories=266, protein=11, fat=10, fiber=2.3 it is 100: −10 for the
    calories, +5 for the protein, nothing for the fat (10 is not above
    10), +5 for the fiber. *)
Theorem health_score_table :
  (forall r : FoodRecord,
      _calculate_health_score r = documented_health_score r
      /\ 0 <= _calculate_health_score r <= 100)
  /\ delta (calories example_record) 300 (-20) 200 (-10) = -10
  /\ delta (protein example_record) 20 10 10 5 = 5
  /\ delta (fat example_record) 15 (-15) 10 (-10) = 0
  /\ delta (fiber example_record) 5 10 2 5 = 5
  /\ _calculate_health_score example_record = 100.
Proof.
  split.
  - intros r. split; [apply health_score_eq_documented|apply health_score_range].
  - repeat split; vm_compute; reflexivity.
Qed.

(** C1, as the specification states it, fails: the score of the worked
    example is not 85. *)
Lemma health_score_example_not_85 :
  _calculate_health_score example_record <> 85.
Proof. vm_compute. discriminate. Qed.

(** The table has the eight documented keys. *)
Lemma food_database_keys :
  dom _load_food_database
  = list_to_set ["apple"; "banana"; "chicken_breast"; "salmon"; "rice";
                 "broccoli"; "pizza"; "salad"]%string.
Proof. vm_compute. reflexivity. Qed.




End FoodRecognitionSpec.

(** ** Risk forecasting *)
Module RiskForecastingSpec.
Import Py RiskForecasting.







(** [int] truncates toward zero; [round] goes to the nearest integer. *)
Example int_of_float_truncates :
  int_of_float 93.75 = Ok 93 /\ int_of_float (-2.5) = Ok (-2)
  /\ round_half_even 93.75 = Some 94.
Proof. repeat split; vm_compute; reflexivity. Qed.



Lemma avg_risk_empty :
  avg_risk [] = Raise (ZeroDivisionError "float division by zero").
Proof. vm_compute. reflexivity. Qed.





End RiskForecastingSpec.

(** ** Activity detection: the fallback ladder *)
Module ActivityDetectionSpec.
Import Py ActivityDetection.

(** [_mock_prediction] is the ladder on the first two features. *)
Lemma mock_prediction_ladder (features : list float) :
  _mock_prediction features
  = ladder (nth 0 features 0%float) (nth 1 features 0%float).
Proof.
  unfold _mock_prediction.
  destruct features as [|a [|b l]]; reflexivity.
Qed.

(** The first two features are the mean and the standard deviation of
    the accelerometer's x axis. *)
Lemma extract_features_head
    (acc gyro : gmap string (list float)) (duration : Z)
    (features xs : list float) :
  _extract_features acc gyro duration = Ok features ->
  acc !! "x"%string = Some xs -> xs <> [] ->
  nth 0 features 0%float = np.mean xs /\ nth 1 features 0%float = np.std xs.
Proof.
  unfold _extract_features. intros H Hx Hne.
  destruct xs as [|x l]; [congruence|].
  assert (Hax : axis_features acc "x"
                = [np.mean (x :: l); np.std (x :: l);
                   np.max (x :: l); np.min (x :: l)])
    by (unfold axis_features; rewrite Hx; reflexivity).
  cbn [flat_map] in H. rewrite Hax in H. cbn [app] in H.
  destruct (nonempty acc "x" && nonempty acc "y" && nonempty acc "z").
  - destruct (acc_magnitude acc) as [m|e]; cbn [mbind result_bind] in H;
      [|discriminate].
    injection H as <-. split; reflexivity.
  - injection H as <-. split; reflexivity.
Qed.

(** What the fallback computes, in general: the ladder on the x axis. *)
Lemma mock_prediction_on_x_axis
    (acc gyro : gmap string (list float)) (duration : Z)
    (features xs : list float) :
  _extract_features acc gyro duration = Ok features ->
  acc !! "x"%string = Some xs -> xs <> [] ->
  _mock_prediction features = ladder (np.mean xs) (np.std xs).
Proof.
  intros H Hx Hne. rewrite mock_prediction_ladder.
  destruct (extract_features_head _ _ _ _ _ H Hx Hne) as [-> ->].
  reflexivity.
Qed.

(** [_extract_features] always returns 26 numbers: 12 for the
    accelerometer, 12 for the gyroscope, 2 for the magnitude. *)
Lemma axis_features_length (data : gmap string (list float)) (axis : string) :
  length (axis_features data axis) = 4%nat.
Proof.
  unfold axis_features. destruct (data !! axis) as [[|x l]|]; reflexivity.
Qed.

Lemma extract_features_length
    (acc gyro : gmap string (list float)) (duration : Z)
    (features : list float) :
  _extract_features acc gyro duration = Ok features ->
  length features = 26%nat.
Proof.
  unfold _extract_features. cbn [flat_map app].
  destruct (nonempty acc "x" && nonempty acc "y" && nonempty acc "z").
  - destruct (acc_magnitude acc) as [m|e]; cbn [mbind result_bind];
      [|discriminate].
    intros [= <-]. rewrite !length_app, !axis_features_length. reflexivity.
  - intros [= <-]. rewrite !length_app, !axis_features_length. reflexivity.
Qed.

(** With the classifier of [__init__], fitted on 12 columns, the
    scaler refuses the 26 features, whatever the request: every call
    of [detect_activity] raises. *)
Lemma fitted_service_raises (round1 : float -> float)
    (scale : list float -> list float)
    (predict_proba : list float -> result (list float))
    (acc gyro : gmap string (list float)) (duration : Z)
    (user_id : option string) (rnd : Z) :
  exists msg : string,
    detect_activity round1 (__init__ scale predict_proba)
      acc gyro duration user_id rnd
    = Raise (Exception_ msg).
Proof.
  unfold detect_activity, detect_activity_body.
  destruct (_extract_features acc gyro duration) as [features|e] eqn:H;
    cbn [mbind result_bind try_except].
  - cbn [model __init__]. unfold scaler_transform.
    rewrite (extract_features_length _ _ _ _ H).
    cbn [n_features_in n_features Nat.eqb mbind result_bind try_except].
    eexists. reflexivity.
  - eexists. reflexivity.
Qed.

(** C4 at a device at rest (ten samples of (0, 0, 1), no gyroscope):
    the magnitude has mean 1 and deviation 0 and sits at features 24
    and 25, where the ladder would say standing at 0.75; the fallback
    reads features 0 and 1, the x axis, and says sitting at 0.90, which
    is also what [detect_activity] returns without a classifier. *)
Theorem fallback_ladder_reads_x_axis :
  let request := ActivityRoutes.at_rest 10 in
  let acc := ActivityRoutes.accelerometer_data request in
  let gyro := ActivityRoutes.gyroscope_data request in
  exists features magnitude : list float,
    _extract_features acc gyro 60 = Ok features
    /\ acc_magnitude acc = Ok magnitude
    /\ np.mean magnitude = 1%float /\ np.std magnitude = 0%float
    /\ nth 24 features 0%float = np.mean magnitude
    /\ nth 25 features 0%float = np.std magnitude
    /\ ladder (np.mean magnitude) (np.std magnitude)
       = ("standing"%string, 0.75%float)
    /\ nth 0 features 0%float
       = np.mean (ActivityRoutes.accelerometer_x (ActivityRoutes.data request))
    /\ nth 1 features 0%float
       = np.std (ActivityRoutes.accelerometer_x (ActivityRoutes.data request))
    /\ _mock_prediction features = ("sitting"%string, 0.90%float)
    /\ forall (round1 : float -> float) (rnd : Z),
        exists r : ActivityResult,
          detect_activity round1 ActivityRoutes.fallback_service
            acc gyro 60 None rnd = Ok r
          /\ predicted_activity r = "sitting"%string
          /\ confidence r = 0.90%float.
Proof.
  cbv zeta.
  exists [0; 0; 0; 0; 0; 0; 0; 0; 1; 0; 1; 1;
          0; 0; 0; 0; 0; 0; 0; 0; 0; 0; 0; 0; 1; 0]%float.
  exists (repeat 1%float 10).
  repeat split; try (vm_compute; reflexivity).
  intros round1 rnd. vm_compute. eexists. repeat split.
Qed.

End ActivityDetectionSpec.

(** ** Activity detection: the routes *)
Module ActivityRoutesSpec.
Import Py ActivityRoutes.

(** C5 on the code: a request with fewer than ten x samples is refused
    before the service is called (the outcome depends on neither the
    service nor the random draw), but the 400 raised by the check is
    caught by the route's own [except Exception] and leaves as a 500. *)
Theorem short_request_leaves_as_500
    (round1 : float -> float)
    (activity_service : ActivityDetection.ActivityDetectionService)
    (request : ActivityRequest) (rnd : Z) :
  (length (accelerometer_x (data request)) < 10)%nat ->
  detect_activity round1 activity_service request rnd
  = Raise (HTTPException 500
             "Activity detection failed: 400: Insufficient sensor data").
Proof.
  intros Hshort. unfold detect_activity.
  destruct (Nat.ltb_spec (length (accelerometer_x (data request))) 10);
    [|lia].
  reflexivity.
Qed.

(** C5 at nine samples per axis. *)
Lemma short_request_leaves_as_500_witness :
  detect_activity (fun x => x) fallback_service (at_rest 9) 120
  = Raise (HTTPException 500
             "Activity detection failed: 400: Insufficient sensor data").
Proof.
  apply (short_request_leaves_as_500 (fun x => x) fallback_service (at_rest 9) 120).
  simpl. lia.
Defined.

(** With ten samples the same route answers. *)
Example ten_samples_accepted :
  is_ok (detect_activity (fun x => x) fallback_service (at_rest 10) 120) = true.
Proof. vm_compute. reflexivity. Qed.

Section Batch.

Variable round1 : float -> float.
Variable activity_service : ActivityDetection.ActivityDetectionService.

(** An entry carries an error exactly when the service raised on its
    request, and its [sample_id] is its position. *)
Lemma batch_entry_shape (rnd : nat -> Z) (i : nat) (request : ActivityRequest) :
  sample_id_of (batch_entry round1 activity_service rnd i request) = i
  /\ has_error (batch_entry round1 activity_service rnd i request)
     = negb (is_ok (call_service round1 activity_service request (rnd i)))
  /\ has_result (batch_entry round1 activity_service rnd i request)
     = is_ok (call_service round1 activity_service request (rnd i)).
Proof.
  unfold batch_entry.
  destruct (call_service round1 activity_service request (rnd i));
    repeat split.
Qed.

(** The batch route always answers, with one entry per request, in
    input order; no entry's failure reaches another. *)
Lemma batch_one_entry_per_request
    (requests : list ActivityRequest) (rnd : nat -> Z) :
  exists entries : list BatchEntry,
    detect_activity_batch round1 activity_service requests rnd
    = Ok {| success := true;
            payload := {| results := entries;
                          total_samples := length requests |} |}
    /\ length entries = length requests
    /\ forall (i : nat) (request : ActivityRequest),
        requests !! i = Some request ->
        entries !! i
        = Some (batch_entry round1 activity_service rnd i request).
Proof.
  exists (imap (batch_entry round1 activity_service rnd) requests).
  split; [|split].
  - unfold detect_activity_batch. cbn [try_except].
    rewrite length_imap. reflexivity.
  - apply length_imap.
  - intros i request H. rewrite list_lookup_imap, H. reflexivity.
Qed.

End Batch.

(** A request whose x and y axes differ in length (3 and 2 samples):
    the magnitude cannot be formed and the service raises. *)
Definition ragged : ActivityRequest :=
  {| data := {| accelerometer_x := [0; 0; 0]%float;
                accelerometer_y := [0; 0]%float;
                accelerometer_z := [1; 1; 1]%float;
                gyroscope_x := []; gyroscope_y := []; gyroscope_z := [];
                timestamp := [0; 0; 0]%float;
                data_user_id := None |};
     duration_seconds := 60;
     user_id := None |}.

(** A failure stays in its own entry. *)
Example batch_isolates_a_raising_item :
  forall (round1 : float -> float) (rnd : nat -> Z),
  exists (r0 r2 : ActivityDetection.ActivityResult) (msg : string),
    detect_activity_batch round1 fallback_service
      [at_rest 10; ragged; at_rest 10] rnd
    = Ok {| success := true;
            payload := {| results := [WithResult 0 r0; WithError 1 msg;
                                      WithResult 2 r2];
                          total_samples := 3 |} |}.
Proof. intros. vm_compute. do 3 eexists. reflexivity. Qed.

(** C6 on the code, for a batch of a ten-sample request followed by a
    three-sample one.  The batch route makes no sample-count check.
    Without a classifier the service accepts three samples, and both
    entries carry a result; with the classifier fitted at start-up the
    scaler refuses every request, and both entries carry an error.  In
    neither case is the short item the one entry with an error. *)
Theorem batch_short_item_not_singled_out :
  forall (round1 : float -> float) (rnd : nat -> Z),
    (exists r0 r1 : ActivityDetection.ActivityResult,
        detect_activity_batch round1 fallback_service
          [at_rest 10; at_rest 3] rnd
        = Ok {| success := true;
                payload := {| results := [WithResult 0 r0; WithResult 1 r1];
                              total_samples := 2 |} |})
    /\ (forall (scale : list float -> list float)
               (predict_proba : list float -> result (list float)),
         exists m0 m1 : string,
           detect_activity_batch round1
             (ActivityDetection.__init__ scale predict_proba)
             [at_rest 10; at_rest 3] rnd
           = Ok {| success := true;
                   payload := {| results := [WithError 0 m0; WithError 1 m1];
                                 total_samples := 2 |} |}).
Proof.
  intros round1 rnd. split.
  - vm_compute. do 2 eexists. reflexivity.
  - intros scale predict_proba. vm_compute. do 2 eexists. reflexivity.
Qed.

End ActivityRoutesSpec.

(** ** The conversation store *)
Module ChatSpec.
Import Py Chat.

Lemma hex_digits_nonempty (count : nat) : forall (u : N) (rest : string),
  rest <> EmptyString -> hex_digits u count rest <> EmptyString.
Proof.
  induction count as [|c IH]; intros u rest H; cbn [hex_digits]; [exact H|].
  apply IH. discriminate.
Qed.

Lemma str_uuid_truthy (u : N) : truthy (Some (str_uuid u)) = true.
Proof.
  assert (H : str_uuid u <> EmptyString).
  { unfold str_uuid. apply hex_digits_nonempty. discriminate. }
  destruct (str_uuid u); [congruence|reflexivity].
Qed.

Section Runs.
Variable env : Env.

Lemma bind_run {A B} (m : M A) (k : A -> M B) (s : State) :
  (m ≫= k) s = match m s with
               | (Ok a, s') => k a s'
               | (Raise e, s') => (Raise e, s')
               end.
Proof. reflexivity. Qed.

Definition fresh_conversation (user_id context : string) (t1 t2 : Z) :=
  {| Conversation.user_id := user_id; Conversation.context := context;
     Conversation.messages := []; Conversation.created_at := t1;
     Conversation.last_activity := t2 |}.

Lemma start_conversation_run (user_id context : string) (s : State) :
  start_conversation env user_id context s
  = (Ok (str_uuid (uuid4 env (tick s))),
     {| conversations :=
          <[str_uuid (uuid4 env (tick s)) :=
              fresh_conversation user_id context
                (now env (S (tick s))) (now env (S (S (tick s))))]>
            (conversations s);
        tick := S (S (S (tick s))) |}).
Proof. reflexivity. Qed.

Definition stored_message (message : string) (is_user : bool) (t : Z)
    (user_id : string) : Message.t :=
  {| Message.message := message; Message.is_user := is_user;
     Message.timestamp := t; Message.user_id := user_id |}.

Definition with_message (c : Conversation.t) (m : Message.t) (t : Z)
  : Conversation.t :=
  {| Conversation.user_id := Conversation.user_id c;
     Conversation.context := Conversation.context c;
     Conversation.messages := Conversation.messages c ++ [m];
     Conversation.created_at := Conversation.created_at c;
     Conversation.last_activity := t |}.

Lemma store_message_present (cid message : string) (is_user : bool)
    (user_id : string) (s : State) (c : Conversation.t) :
  conversations s !! cid = Some c ->
  _store_message env cid message is_user user_id s
  = (Ok tt,
     {| conversations :=
          <[cid := with_message c
                     (stored_message message is_user (now env (tick s)) user_id)
                     (now env (S (tick s)))]> (conversations s);
        tick := S (S (tick s)) |}).
Proof.
  intros H. unfold _store_message. rewrite bind_run.
  unfold get_conversations. rewrite H. reflexivity.
Qed.

Lemma store_message_absent (cid message : string) (is_user : bool)
    (user_id : string) (s : State) :
  conversations s !! cid = None ->
  _store_message env cid message is_user user_id s = (Ok tt, s).
Proof.
  intros H. unfold _store_message. rewrite bind_run.
  unfold get_conversations. rewrite H. reflexivity.
Qed.

Definition bump (s : State) : State :=
  {| conversations := conversations s; tick := S (tick s) |}.

Lemma generate_response_run (message context cid : string) (s : State) :
  exists response : Response.t,
    _generate_response env message context cid s = (Ok response, bump s)
    /\ Response.message response
       = nth (randrange env (tick s) mod length (responses_for (lower message)))%nat
             (responses_for (lower message)) EmptyString.
Proof. eexists. split; reflexivity. Qed.

Lemma history_run (cid : string) (s : State) :
  get_conversation_history cid s
  = (match conversations s !! cid with
     | Some c => Ok (Conversation.messages c)
     | None => Raise (ValueError "Conversation not found")
     end, s).
Proof.
  unfold get_conversation_history. rewrite bind_run. unfold get_conversations.
  destruct (conversations s !! cid); reflexivity.
Qed.

Lemma delete_run (cid : string) (s : State) :
  delete_conversation cid s
  = (Ok tt, {| conversations := delete cid (conversations s); tick := tick s |}).
Proof.
  unfold delete_conversation. rewrite bind_run. unfold get_conversations.
  destruct (conversations s !! cid) eqn:H.
  - reflexivity.
  - unfold mret, M_ret. rewrite delete_id by exact H. destruct s; reflexivity.
Qed.

(** The part of [process_message] that follows the choice of the id. *)
Definition exchange (message user_id context conversation_id : string)
  : M Reply.t :=
  _ ← _store_message env conversation_id message true user_id;
  response ← _generate_response env message context conversation_id;
  _ ← _store_message env conversation_id (Response.message response) false user_id;
  mret {| Reply.message := Response.message response;
          Reply.conversation_id := conversation_id;
          Reply.suggestions := Response.suggestions response;
          Reply.context := Response.context response |}.

Lemma process_message_unfold (message user_id context : string)
    (conversation_id : option string) (s : State) :
  process_message env message user_id context conversation_id s
  = try_except_M
      (cid ← (if truthy conversation_id
              then mret (default EmptyString conversation_id)
              else start_conversation env user_id context);
       exchange message user_id context cid)
      (fun e => raise (Exception_ ("Chat processing failed: " +:+ str_exn e)))
      s.
Proof. reflexivity. Qed.

Lemma exchange_present (message user_id context cid : string) (s : State)
    (c : Conversation.t) :
  conversations s !! cid = Some c ->
  exists (reply : Reply.t) (t1 t2 t3 t4 : Z),
    exchange message user_id context cid s
    = (Ok reply,
       {| conversations :=
            <[cid := with_message
                       (with_message c
                          (stored_message message true t1 user_id) t2)
                       (stored_message (Reply.message reply) false t3 user_id)
                       t4]> (conversations s);
          tick := 5 + tick s |})
    /\ Reply.conversation_id reply = cid.
Proof.
  intros H. unfold exchange.
  rewrite bind_run, (store_message_present _ _ _ _ _ _ H).
  rewrite bind_run.
  destruct (generate_response_run message context cid
              {| conversations :=
                   <[cid := with_message c
                              (stored_message message true (now env (tick s)) user_id)
                              (now env (S (tick s)))]> (conversations s);
                 tick := S (S (tick s)) |}) as [response [-> _]].
  rewrite bind_run.
  erewrite store_message_present
    by (unfold bump; cbn [conversations]; apply lookup_insert_eq).
  unfold bump. cbn [conversations tick]. rewrite insert_insert_eq.
  exists {| Reply.message := Response.message response;
            Reply.conversation_id := cid;
            Reply.suggestions := Response.suggestions response;
            Reply.context := Response.context response |}.
  do 4 eexists. split; reflexivity.
Qed.

Lemma exchange_absent (message user_id context cid : string) (s : State) :
  conversations s !! cid = None ->
  exists reply : Reply.t,
    exchange message user_id context cid s = (Ok reply, bump s)
    /\ Reply.conversation_id reply = cid.
Proof.
  intros H. unfold exchange.
  rewrite bind_run, (store_message_absent _ _ _ _ _ H).
  rewrite bind_run.
  destruct (generate_response_run message context cid s) as [response [-> _]].
  rewrite bind_run.
  rewrite store_message_absent by exact H.
  eexists. split; reflexivity.
Qed.
End Runs.

(** C8: for every user id and context, and from any state of the
    service, [start_conversation] returns an id whose history is the
    empty list; one [process_message] on that id then returns a reply
    for the same id, and the history is exactly two messages: first the
    user's, with the text sent, then the assistant's, with the text of
    the reply. *)
Theorem history_after_start_and_one_message
    (env : Env) (s : State) (user_id context : string) :
  exists (cid : string) (s1 : State),
    start_conversation env user_id context s = (Ok cid, s1)
    /\ get_conversation_history cid s1 = (Ok [], s1)
    /\ forall message uid ctx : string,
        exists (reply : Reply.t) (s2 : State) (m1 m2 : Message.t),
          process_message env message uid ctx (Some cid) s1 = (Ok reply, s2)
          /\ Reply.conversation_id reply = cid
          /\ get_conversation_history cid s2 = (Ok [m1; m2], s2)
          /\ Message.is_user m1 = true /\ Message.message m1 = message
          /\ Message.is_user m2 = false
          /\ Message.message m2 = Reply.message reply.
Proof.
  rewrite start_conversation_run.
  set (cid := str_uuid (uuid4 env (tick s))).
  set (c0 := fresh_conversation _ _ _ _).
  eexists cid, _. split; [reflexivity|].
  split.
  - rewrite history_run. cbn [conversations].
    rewrite lookup_insert_eq. reflexivity.
  - intros message uid ctx.
    rewrite process_message_unfold.
    assert (Ht : truthy (Some cid) = true) by apply str_uuid_truthy.
    rewrite Ht.
    unfold try_except_M. rewrite bind_run. cbn [mret M_ret default].
    destruct (exchange_present env message uid ctx cid
                {| conversations := <[cid := c0]> (conversations s);
                   tick := S (S (S (tick s))) |} c0) as
      (reply & t1 & t2 & t3 & t4 & Hrun & Hid);
      [cbn [conversations]; apply lookup_insert_eq|].
    change (id cid) with cid. rewrite Hrun.
    eexists reply, _, _, _. split; [reflexivity|]. split; [exact Hid|].
    split.
    + rewrite history_run. cbn [conversations].
      rewrite lookup_insert_eq. reflexivity.
    + repeat split.
Qed.

(** C10, as the code has it: for every non-empty conversation id that
    is not in the store, [process_message] raises nothing, returns a
    reply carrying that same id, and leaves the conversation store as
    it was: no conversation is created and no message is stored. *)
Theorem unknown_id_leaves_store_unchanged
    (env : Env) (s : State) (message user_id context cid : string) :
  cid <> EmptyString ->
  conversations s !! cid = None ->
  exists (reply : Reply.t) (s' : State),
    process_message env message user_id context (Some cid) s = (Ok reply, s')
    /\ Reply.conversation_id reply = cid
    /\ conversations s' = conversations s.
Proof.
  intros Hne Habsent.
  rewrite process_message_unfold.
  destruct cid as [|a r]; [congruence|].
  cbn [truthy default]. unfold try_except_M. rewrite bind_run.
  cbn [mret M_ret]. change (id (String a r)) with (String a r).
  destruct (exchange_absent env message user_id context (String a r) s Habsent)
    as [reply [-> Hid]].
  exists reply, (bump s). repeat split; assumption.
Qed.

(** C10 on a fresh service, for an id that was never issued. *)
Lemma unknown_id_leaves_store_unchanged_witness :
  exists (reply : Reply.t) (s' : State),
    process_message sample_env "how do I sleep better" "u1" "health_coaching"
      (Some "no-such-conversation"%string) init = (Ok reply, s')
    /\ Reply.conversation_id reply = "no-such-conversation"%string
    /\ conversations s' = conversations init.
Proof.
  apply (unknown_id_leaves_store_unchanged sample_env init).
  - discriminate.
  - reflexivity.
Defined.

(** C10, as the specification states it, fails at the empty string:
    it is not in the store of a fresh service, yet [process_message]
    treats it as no id at all, starts a conversation under a new id,
    returns that id and stores both messages. *)
Lemma empty_id_starts_a_conversation :
  let out := process_message sample_env "how do I sleep better" "u1"
               "health_coaching" (Some EmptyString) init in
  conversations init !! EmptyString = None
  /\ match fst out with
     | Ok reply =>
         Reply.conversation_id reply
         = "123e4567-e89b-42d3-a456-426614174000"%string
     | Raise _ => False
     end
  /\ conversations (snd out) <> conversations init.
Proof.
  cbv zeta. split; [reflexivity|]. split; [vm_compute; reflexivity|].
  intros H. apply (f_equal size) in H. vm_compute in H. discriminate.
Qed.

Definition contexts_as_supplied (s : State) (supplied : gmap string string)
  : Prop :=
  forall (cid : string) (c : Conversation.t),
    conversations s !! cid = Some c ->
    supplied !! cid = Some (Conversation.context c).

(** Every conversation of [s'] was in [s] with the same context. *)
Definition keeps_contexts (s s' : State) : Prop :=
  forall (cid : string) (c' : Conversation.t),
    conversations s' !! cid = Some c' ->
    exists c, conversations s !! cid = Some c
              /\ Conversation.context c' = Conversation.context c.

Lemma keeps_contexts_refl (s : State) : keeps_contexts s s.
Proof. intros cid c H. exists c. split; [exact H|reflexivity]. Qed.

Lemma keeps_contexts_same (s s' : State) :
  conversations s' = conversations s -> keeps_contexts s s'.
Proof. intros E cid c H. rewrite E in H. exists c. split; [exact H|reflexivity]. Qed.

Lemma keeps_contexts_update (s : State) (cid : string)
    (c c' : Conversation.t) (k : nat) :
  conversations s !! cid = Some c ->
  Conversation.context c' = Conversation.context c ->
  keeps_contexts s {| conversations := <[cid := c']> (conversations s);
                      tick := k |}.
Proof.
  intros H E i x. cbn [conversations].
  destruct (decide (cid = i)) as [<-|Hne].
  - rewrite lookup_insert_eq. intros [= <-]. exists c. split; assumption.
  - rewrite lookup_insert_ne by exact Hne. intros Hx. exists x.
    split; [exact Hx|reflexivity].
Qed.

Lemma store_message_keeps (env : Env) (cid message : string) (is_user : bool)
    (user_id : string) (s : State) :
  keeps_contexts s (snd (_store_message env cid message is_user user_id s)).
Proof.
  destruct (conversations s !! cid) as [c|] eqn:H.
  - rewrite (store_message_present env _ _ _ _ _ _ H). cbn [snd].
    apply (keeps_contexts_update s cid c); [exact H|reflexivity].
  - rewrite (store_message_absent env _ _ _ _ _ H). apply keeps_contexts_refl.
Qed.

Lemma exchange_keeps (env : Env) (message user_id context cid : string)
    (s : State) :
  keeps_contexts s (snd (exchange env message user_id context cid s)).
Proof.
  destruct (conversations s !! cid) as [c|] eqn:H.
  - destruct (exchange_present env message user_id context cid s c H)
      as (reply & t1 & t2 & t3 & t4 & -> & _).
    cbn [snd]. apply (keeps_contexts_update s cid c); [exact H|reflexivity].
  - destruct (exchange_absent env message user_id context cid s H)
      as (reply & -> & _).
    apply keeps_contexts_same. reflexivity.
Qed.

Lemma exchange_returns (env : Env) (message user_id context cid : string)
    (s : State) :
  exists reply : Reply.t,
    fst (exchange env message user_id context cid s) = Ok reply
    /\ Reply.conversation_id reply = cid.
Proof.
  destruct (conversations s !! cid) as [c|] eqn:H.
  - destruct (exchange_present env message user_id context cid s c H)
      as (reply & t1 & t2 & t3 & t4 & -> & Hid).
    exists reply. split; [reflexivity|exact Hid].
  - destruct (exchange_absent env message user_id context cid s H)
      as (reply & -> & Hid).
    exists reply. split; [reflexivity|exact Hid].
Qed.

(** [process_message] when the id is given. *)
Lemma process_with_id (env : Env) (message user_id context : string)
    (a : ascii) (r : string) (s : State) :
  process_message env message user_id context (Some (String a r)) s
  = exchange env message user_id context (String a r) s.
Proof.
  rewrite process_message_unfold. cbn [truthy default].
  unfold try_except_M. rewrite bind_run. cbn [mret M_ret].
  change (id (String a r)) with (String a r).
  destruct (exchange_returns env message user_id context (String a r) s)
    as [reply [H _]].
  destruct (exchange env message user_id context (String a r) s) as [res s'].
  cbn [fst] in H. subst res. reflexivity.
Qed.

(** [process_message] when the id is falsy. *)
Lemma process_without_id (env : Env) (message user_id context : string)
    (o : option string) (s : State) :
  truthy o = false ->
  process_message env message user_id context o s
  = exchange env message user_id context (str_uuid (uuid4 env (tick s)))
      (snd (start_conversation env user_id context s)).
Proof.
  intros Hf. rewrite process_message_unfold, Hf.
  unfold try_except_M. rewrite bind_run, start_conversation_run. cbn [snd].
  set (s1 := {| conversations := _; tick := _ |}).
  set (cid := str_uuid _).
  destruct (exchange_returns env message user_id context cid s1)
    as [reply [H _]].
  destruct (exchange env message user_id context cid s1) as [res s'].
  cbn [fst] in H. subst res. reflexivity.
Qed.

Lemma exec_keeps (env : Env) (call : Call) (s : State) :
  starts call = false -> keeps_contexts s (exec env call s).
Proof.
  destruct call as [u c|m u c o|i m b u|i|i]; cbn [starts exec]; intros Hs.
  - discriminate.
  - destruct o as [[|a r]|]; try discriminate.
    rewrite process_with_id. apply exchange_keeps.
  - apply store_message_keeps.
  - rewrite history_run. apply keeps_contexts_refl.
  - rewrite delete_run. cbn [snd]. intros cid c' H. cbn [conversations] in H.
    destruct (decide (i = cid)) as [<-|Hne].
    + rewrite lookup_delete_eq in H. discriminate.
    + rewrite lookup_delete_ne in H by exact Hne.
      exists c'. split; [exact H|reflexivity].
Qed.

(** A call that reaches [start_conversation] keeps the contexts of the
    state [start_conversation] leaves. *)
Lemma exec_after_start (env : Env) (call : Call) (s : State) :
  starts call = true ->
  exists u ctx,
    keeps_contexts (snd (start_conversation env u ctx s)) (exec env call s).
Proof.
  destruct call as [u c|m u c o|i m b u|i|i]; cbn [starts exec]; intros Hs;
    try discriminate.
  - exists u, c. apply keeps_contexts_refl.
  - apply negb_true_iff in Hs. exists u, c.
    rewrite (process_without_id env m u c o s Hs). apply exchange_keeps.
Qed.

Lemma keeps_as_supplied (s s' : State) (supplied : gmap string string) :
  contexts_as_supplied s supplied -> keeps_contexts s s' ->
  contexts_as_supplied s' supplied.
Proof.
  intros Hinv Hk cid c' H. destruct (Hk cid c' H) as [c [Hc ->]].
  apply Hinv. exact Hc.
Qed.

Lemma start_as_supplied (env : Env) (u ctx : string) (s : State)
    (supplied : gmap string string) :
  contexts_as_supplied s supplied ->
  contexts_as_supplied (snd (start_conversation env u ctx s))
    (<[str_uuid (uuid4 env (tick s)) := ctx]> supplied).
Proof.
  intros Hinv cid c. rewrite start_conversation_run. cbn [snd conversations].
  destruct (decide (str_uuid (uuid4 env (tick s)) = cid)) as [<-|Hne].
  - rewrite !lookup_insert_eq. intros [= <-]. reflexivity.
  - rewrite !lookup_insert_ne by exact Hne. apply Hinv.
Qed.

Lemma step_as_supplied (env : Env) (call : Call) (s : State)
    (supplied : gmap string string) :
  contexts_as_supplied s supplied ->
  contexts_as_supplied (exec env call s) (record_creation env call s supplied).
Proof.
  intros Hinv.
  destruct (starts call) eqn:Hs.
  - destruct call as [u c|m u c o|i m b u|i|i]; try discriminate.
    + cbn [exec record_creation]. rewrite start_conversation_run at 2.
      cbn [fst]. apply start_as_supplied. exact Hinv.
    + cbn [starts] in Hs. apply negb_true_iff in Hs.
      cbn [exec record_creation]. rewrite Hs.
      rewrite (process_without_id env m u c o s Hs).
      set (cid := str_uuid (uuid4 env (tick s))).
      set (s1 := snd (start_conversation env u c s)).
      destruct (exchange_returns env m u c cid s1) as [reply [Hr Hid]].
      rewrite Hr, Hid.
      apply (keeps_as_supplied s1); [|apply exchange_keeps].
      apply start_as_supplied. exact Hinv.
  - assert (Hg : record_creation env call s supplied = supplied).
    { destruct call as [u c|m u c o|i m b u|i|i]; try reflexivity;
        try discriminate.
      cbn [starts] in Hs. apply negb_false_iff in Hs.
      cbn [record_creation]. rewrite Hs. reflexivity. }
    rewrite Hg. apply (keeps_as_supplied s); [exact Hinv|].
    apply exec_keeps. exact Hs.
Qed.

Lemma run_as_supplied (env : Env) (calls : list Call) :
  forall (s : State) (supplied : gmap string string),
    contexts_as_supplied s supplied ->
    contexts_as_supplied (fst (run env calls s supplied))
                         (snd (run env calls s supplied)).
Proof.
  induction calls as [|call rest IH]; intros s supplied Hinv; cbn [run].
  - exact Hinv.
  - apply IH. apply step_as_supplied. exact Hinv.
Qed.

(** C9: after any sequence of calls on a fresh service, every stored
    conversation's context is the context that was supplied to the
    [start_conversation] that created it; and a call that does not
    reach [start_conversation] ([_store_message],
    [get_conversation_history], [delete_conversation], and
    [process_message] with an id) leaves the context of every
    conversation it keeps unchanged, while a call that does reach it
    leaves the context of every other conversation unchanged. *)
Theorem context_fixed_at_creation (env : Env) :
  (forall (calls : list Call) (cid : string) (c : Conversation.t),
      conversations (fst (run env calls init ∅)) !! cid = Some c ->
      snd (run env calls init ∅) !! cid = Some (Conversation.context c))
  /\ (forall (call : Call) (s : State) (cid : string) (c c' : Conversation.t),
         starts call = false ->
         conversations s !! cid = Some c ->
         conversations (exec env call s) !! cid = Some c' ->
         Conversation.context c' = Conversation.context c)
  /\ (forall (call : Call) (s : State) (cid : string) (c c' : Conversation.t),
         starts call = true ->
         cid <> str_uuid (uuid4 env (tick s)) ->
         conversations s !! cid = Some c ->
         conversations (exec env call s) !! cid = Some c' ->
         Conversation.context c' = Conversation.context c).
Proof.
  split; [|split].
  - intros calls. apply run_as_supplied. intros cid c H.
    cbn [init conversations] in H. rewrite lookup_empty in H. discriminate.
  - intros call s cid c c' Hs Hc Hc'.
    destruct (exec_keeps env call s Hs cid c' Hc') as [c0 [H0 ->]].
    congruence.
  - intros call s cid c c' Hs Hne Hc Hc'.
    destruct (exec_after_start env call s Hs) as (u & ctx & Hk).
    destruct (Hk cid c' Hc') as [c1 [H1 ->]].
    rewrite start_conversation_run in H1. cbn [snd conversations] in H1.
    rewrite lookup_insert_ne in H1 by congruence. congruence.
Qed.

(** Two calls on a fresh service: a conversation is started in the
    context mental_wellness, then a message is processed on it under the
    context health_coaching. *)
Definition sample_id : string := "123e4567-e89b-42d3-a456-426614174000".

Definition sample_calls : list Call :=
  [CallStart "u1" "mental_wellness";
   CallProcess "I feel stress" "u1" "health_coaching" (Some sample_id)].

(** C9 on [sample_calls]: the conversation still carries the context it
    was started with. *)
Lemma context_fixed_at_creation_witness :
  exists c : Conversation.t,
    conversations (fst (run sample_env sample_calls init ∅)) !! sample_id
    = Some c
    /\ length (Conversation.messages c) = 2%nat
    /\ Conversation.context c = "mental_wellness"%string
    /\ snd (run sample_env sample_calls init ∅) !! sample_id
       = Some (Conversation.context c).
Proof.
  destruct (conversations (fst (run sample_env sample_calls init ∅))
              !! sample_id) as [c|] eqn:H.
  - exists c. split; [reflexivity|].
    split; [vm_compute in H; injection H as <-; reflexivity|].
    split; [vm_compute in H; injection H as <-; reflexivity|].
    exact (proj1 (context_fixed_at_creation sample_env) sample_calls sample_id c H).
  - vm_compute in H. discriminate.
Defined.

End ChatSpec.

(* ================================================================== *)
(** * Part III.  The rest of the services and their routes            *)
(* ================================================================== *)

(** ** [services/food_recognition_service.py]: recognition *)
Module FoodRecognitionRest.
Import Py FoodRecognition.

(** [list(self.food_database.keys())]: the keys of the table in the
    order of the dict literal ([self.food_database] is assigned once,
    in [__init__]). *)
Definition food_names : list string :=
  ["apple"; "banana"; "chicken_breast"; "salmon"; "rice"; "broccoli";
   "pizza"; "salad"]%string.

(** What one call of [recognize_food] draws from [random]: the index
    [random.choice] picks, the [random.random()] behind
    [random.uniform], and the value of [random.randint(200, 800)]. *)
Record Draws : Type := {
  choice_index : nat;
  random_unit : float;
  randint_ms : Z
}.

(** [random.uniform(a, b)] is [a + (b - a) * random()]. *)
Definition random_uniform (a b unit : float) : float :=
  (a + (b - a) * unit)%float.

(** [_simulate_recognition]. *)
Definition _simulate_recognition (draws : Draws) : string * float :=
  let foods := food_names in
  let food_name :=
    nth (choice_index draws mod length foods)%nat foods EmptyString in
  let confidence := random_uniform 0.7 0.95 (random_unit draws) in
  (food_name, confidence).

(** [_generate_ingredients] and [_detect_allergens]. *)
Definition _generate_ingredients (food_name : string) : list string :=
  let ingredient_map : gmap string (list string) := list_to_map [
    ("apple", ["Apple"]);
    ("banana", ["Banana"]);
    ("chicken_breast", ["Chicken breast"; "Salt"; "Pepper"]);
    ("salmon", ["Salmon fillet"; "Lemon"; "Dill"; "Salt"]);
    ("rice", ["White rice"; "Water"; "Salt"]);
    ("broccoli", ["Broccoli"; "Olive oil"; "Salt"]);
    ("pizza", ["Pizza dough"; "Tomato sauce"; "Mozzarella"; "Pepperoni"]);
    ("salad", ["Mixed greens"; "Tomatoes"; "Cucumbers"; "Olive oil";
               "Vinegar"])
  ]%string in
  get ingredient_map food_name ["Unknown ingredients"%string].

Definition _detect_allergens (food_name : string) : list string :=
  let allergen_map : gmap string (list string) := list_to_map [
    ("pizza", ["gluten"; "dairy"]);
    ("salmon", ["fish"]);
    ("chicken_breast", [])
  ]%string in
  get allergen_map food_name [].

(** The record [recognize_food] falls back on for a name outside the
    table. *)
Definition default_nutrition : FoodRecord :=
  {| calories := Int 200; protein := Int 10; carbs := Int 25;
     fat := Int 8; fiber := Int 3;
     vitamins := ["C"%string]; confidence_threshold := Float 0.5 |}.

(** The dict [recognize_food] returns; [nutrition] is its inner dict. *)
Module Nutrition.
Record t : Type := {
  calories : num;
  protein : num;
  carbs : num;
  fat : num;
  fiber : num
}.
End Nutrition.

Module Recognition.
Record t : Type := {
  food_name : string;
  confidence : float;
  nutrition : Nutrition.t;
  vitamins : list string;
  ingredients : list string;
  serving_size : string;
  health_score : Z;
  allergens : list string;
  processing_time_ms : Z
}.
End Recognition.

(** [recognize_food]; the image is not looked at.  Nothing in the body
    raises, so the [except] that would wrap an exception is never
    entered. *)
Definition recognize_food (self : FoodRecognitionService) (draws : Draws)
    (user_id : option string) : result Recognition.t :=
  try_except
    (let '(food_name, confidence) := _simulate_recognition draws in
     let nutrition_info := get (food_database self) food_name default_nutrition in
     let ingredients := _generate_ingredients food_name in
     Ok {| Recognition.food_name := food_name;
           Recognition.confidence := confidence;
           Recognition.nutrition :=
             {| Nutrition.calories := calories nutrition_info;
                Nutrition.protein := protein nutrition_info;
                Nutrition.carbs := carbs nutrition_info;
                Nutrition.fat := fat nutrition_info;
                Nutrition.fiber := fiber nutrition_info |};
           Recognition.vitamins := vitamins nutrition_info;
           Recognition.ingredients := ingredients;
           Recognition.serving_size := "1 serving";
           Recognition.health_score := _calculate_health_score nutrition_info;
           Recognition.allergens := _detect_allergens food_name;
           Recognition.processing_time_ms := randint_ms draws |})
    (fun e => Raise (Exception_ ("Food recognition failed: " +:+ str_exn e))).

End FoodRecognitionRest.

(** ** [routes/food_recognition.py]: the nutrition lookup *)
Module FoodRoutes.
Import Py FoodRecognition.

Section Routes.

(** The module-level [food_service]. *)
Variable food_service : FoodRecognitionService.


End Routes.

End FoodRoutes.

(** ** [services/risk_forecasting_service.py]: the rest of the service *)
Module RiskForecastingRest.
Import Py RiskForecasting.

(** [_encode_smoking_status], [_encode_activity_level],
    [_encode_diet_quality]. *)
Definition _encode_smoking_status (status : string) : Z :=
  let encoding : gmap string Z :=
    list_to_map [("never", 0); ("former", 1); ("current", 2)]%string in
  get encoding status 0.

Definition _encode_activity_level (level : string) : Z :=
  let encoding : gmap string Z :=
    list_to_map [("sedentary", 0); ("light", 1); ("moderate", 2);
                 ("active", 3); ("very_active", 4)]%string in
  get encoding level 2.

Definition _encode_diet_quality (quality : string) : Z :=
  let encoding : gmap string Z :=
    list_to_map [("poor", 0); ("fair", 1); ("good", 2);
                 ("excellent", 3)]%string in
  get encoding quality 1.

(** [_categorize_risk] and [_predict_trend]. *)
Definition _categorize_risk (risk_score : num) : string :=
  if lt risk_score (Float 0.1) then "low"
  else if lt risk_score (Float 0.3) then "moderate"
  else "high".

Definition _predict_trend (risk_type : string) (current_risk : num) : string :=
  if lt current_risk (Float 0.1) then "stable"
  else if lt current_risk (Float 0.3) then "increasing"
  else "rapidly_increasing".

(** One flagged risk factor. *)
Module RiskFactor.
Record t : Type := {
  factor : string;
  level : string;
  description : string
}.
End RiskFactor.

(** [_identify_risk_factors]. *)
Definition _identify_risk_factors (health_metrics : HealthMetrics)
    (lifestyle_data : LifestyleData) : result (list RiskFactor.t) :=
  let risk_factors := [] in
  let age := default 40 (age lifestyle_data) in
  let risk_factors :=
    if age >? 65
    then risk_factors ++
         [{| RiskFactor.factor := "age"; RiskFactor.level := "high";
             RiskFactor.description :=
               "Age " +:+ pretty age
               +:+ " increases risk for multiple conditions" |}]
    else risk_factors in
  let bp_systolic := default 120 (blood_pressure_systolic health_metrics) in
  let risk_factors :=
    if bp_systolic >? 140
    then risk_factors ++
         [{| RiskFactor.factor := "hypertension"; RiskFactor.level := "high";
             RiskFactor.description :=
               "High blood pressure significantly increases cardiovascular risk" |}]
    else risk_factors in
  bmi ← bmi_of health_metrics;
  let risk_factors :=
    if PrimFloat.ltb 30 bmi
    then risk_factors ++
         [{| RiskFactor.factor := "obesity"; RiskFactor.level := "high";
             RiskFactor.description :=
               "Obesity increases risk for diabetes and cardiovascular disease" |}]
    else risk_factors in
  let activity_level :=
    default "moderate"%string (physical_activity_level lifestyle_data) in
  let risk_factors :=
    if String.eqb activity_level "sedentary"
    then risk_factors ++
         [{| RiskFactor.factor := "physical_inactivity";
             RiskFactor.level := "moderate";
             RiskFactor.description :=
               "Low physical activity increases risk for multiple conditions" |}]
    else risk_factors in
  Ok risk_factors.

(** One recommendation. *)
Module Recommendation.
Record t : Type := {
  category : string;
  priority : string;
  action : string;
  specific_steps : list string
}.
End Recommendation.

(** [_generate_recommendations]; [risk_predictions] and [risk_factors]
    are accepted and not read. *)
Definition _generate_recommendations
    (risk_predictions : list (string * num))
    (risk_factors : list RiskFactor.t)
    (health_metrics : HealthMetrics) (lifestyle_data : LifestyleData)
  : result (list Recommendation.t) :=
  let recommendations := [] in
  let bp_systolic := default 120 (blood_pressure_systolic health_metrics) in
  let recommendations :=
    if bp_systolic >? 130
    then recommendations ++
         [{| Recommendation.category := "cardiovascular";
             Recommendation.priority := "high";
             Recommendation.action :=
               "Monitor blood pressure regularly and consider lifestyle changes";
             Recommendation.specific_steps :=
               ["Reduce sodium intake";
                "Increase physical activity";
                "Manage stress levels";
                "Consider consulting a healthcare provider"]%string |}]
    else recommendations in
  bmi ← bmi_of health_metrics;
  let recommendations :=
    if PrimFloat.ltb 25 bmi
    then recommendations ++
         [{| Recommendation.category := "weight_management";
             Recommendation.priority := "moderate";
             Recommendation.action := "Focus on sustainable weight management";
             Recommendation.specific_steps :=
               ["Create a calorie deficit through diet and exercise";
                "Focus on whole foods and portion control";
                "Increase daily physical activity";
                "Set realistic weight loss goals"]%string |}]
    else recommendations in
  let activity_level :=
    default "moderate"%string (physical_activity_level lifestyle_data) in
  let recommendations :=
    if String.eqb activity_level "sedentary" || String.eqb activity_level "light"
    then recommendations ++
         [{| Recommendation.category := "physical_activity";
             Recommendation.priority := "high";
             Recommendation.action := "Increase daily physical activity";
             Recommendation.specific_steps :=
               ["Start with 10-15 minutes of daily walking";
                "Gradually increase to 150 minutes of moderate activity per week";
                "Include strength training 2-3 times per week";
                "Find activities you enjoy to maintain consistency"]%string |}]
    else recommendations in
  Ok recommendations.

(** One intervention, and the dict [suggest_interventions] returns.
    The key [type] is [kind] here. *)
Module Intervention.
Record t : Type := {
  kind : string;
  name : string;
  description : string;
  expected_benefit : string;
  difficulty : string;
  time_to_effect : string
}.
End Intervention.

Module Interventions.
Record t : Type := {
  interventions : list Intervention.t;
  total_count : nat;
  personalization_level : string
}.
End Interventions.

(** [suggest_interventions]. *)
Definition suggest_interventions (health_metrics : HealthMetrics)
    (lifestyle_data : LifestyleData) (user_id : option string)
  : result Interventions.t :=
  let interventions := [] in
  let bp_systolic := default 120 (blood_pressure_systolic health_metrics) in
  let interventions :=
    if bp_systolic >? 130
    then interventions ++
         [{| Intervention.kind := "dietary";
             Intervention.name := "DASH Diet";
             Intervention.description :=
               "Dietary Approaches to Stop Hypertension";
             Intervention.expected_benefit := "Reduce systolic BP by 5-10 mmHg";
             Intervention.difficulty := "moderate";
             Intervention.time_to_effect := "2-4 weeks" |}]
    else interventions in
  bmi ← bmi_of health_metrics;
  let interventions :=
    if PrimFloat.ltb 25 bmi
    then interventions ++
         [{| Intervention.kind := "lifestyle";
             Intervention.name := "Calorie Restriction";
             Intervention.description :=
               "Moderate calorie reduction for sustainable weight loss";
             Intervention.expected_benefit := "5-10% weight loss over 6 months";
             Intervention.difficulty := "moderate";
             Intervention.time_to_effect := "4-8 weeks" |}]
    else interventions in
  let activity_level :=
    default "moderate"%string (physical_activity_level lifestyle_data) in
  let interventions :=
    if String.eqb activity_level "sedentary" || String.eqb activity_level "light"
    then interventions ++
         [{| Intervention.kind := "exercise";
             Intervention.name := "Progressive Walking Program";
             Intervention.description :=
               "Gradually increase daily walking duration";
             Intervention.expected_benefit :=
               "Improve cardiovascular fitness and reduce disease risk";
             Intervention.difficulty := "easy";
             Intervention.time_to_effect := "2-3 weeks" |}]
    else interventions in
  Ok {| Interventions.interventions := interventions;
        Interventions.total_count := length interventions;
        Interventions.personalization_level :=
          if truthy user_id then "high" else "moderate" |}.


(** A dict value that reaches the feature vector: a number, or [None]
    for an optional field of the request that was left unset. *)
Inductive value : Type :=
| VNone
| VNum (n : num).

(** The other keys [_extract_features] reads; [None] is an absent key. *)
Record HealthExtras : Type := {
  blood_pressure_diastolic : option value;
  heart_rate : option value;
  cholesterol_total : option value;
  cholesterol_hdl : option value;
  cholesterol_ldl : option value;
  blood_glucose : option value;
  hba1c : option value
}.

Record LifestyleExtras : Type := {
  gender : option string;
  smoking_status : option string;
  diet_quality : option string;
  sleep_hours : option value
}.

(** [_extract_features]: ten health values, then six lifestyle values. *)
Definition _extract_features (health_metrics : HealthMetrics)
    (health_extras : HealthExtras) (lifestyle_data : LifestyleData)
    (lifestyle_extras : LifestyleExtras) : list value :=
  let features := [] in
  let features :=
    features ++
    [ VNum (from_option Float (Int 70) (weight health_metrics));
      VNum (from_option Float (Int 170) (height health_metrics));
      VNum (Int (default 120 (blood_pressure_systolic health_metrics)));
      default (VNum (Int 80)) (blood_pressure_diastolic health_extras);
      default (VNum (Int 70)) (heart_rate health_extras);
      default (VNum (Int 200)) (cholesterol_total health_extras);
      default (VNum (Int 50)) (cholesterol_hdl health_extras);
      default (VNum (Int 120)) (cholesterol_ldl health_extras);
      default (VNum (Int 90)) (blood_glucose health_extras);
      default (VNum (Float 5.5)) (hba1c health_extras) ] in
  let features :=
    features ++
    [ VNum (Int (default 40 (age lifestyle_data)));
      VNum (Int (match gender lifestyle_extras with
                 | Some g => if String.eqb g "male" then 1 else 0
                 | None => 0
                 end));
      VNum (Int (_encode_smoking_status
                   (default "never"%string (smoking_status lifestyle_extras))));
      VNum (Int (_encode_activity_level
                   (default "moderate"%string
                      (physical_activity_level lifestyle_data))));
      VNum (Int (_encode_diet_quality
                   (default "fair"%string (diet_quality lifestyle_extras))));
      default (VNum (Int 7)) (sleep_hours lifestyle_extras) ] in
  features.

(** A [StandardScaler]: the column count [fit] recorded ([None] before
    any [fit]), and what it computes once a row is accepted.
    [transform] refuses an unfitted scaler and a row of another
    width. *)
Record Scaler : Type := {
  n_features_in : option nat;
  scale : list value -> result (list float)
}.

Definition scaler_transform (scaler : Scaler) (row : list value)
  : result (list float) :=
  match n_features_in scaler with
  | None =>
      Raise (ValueError "This StandardScaler instance is not fitted yet.")
  | Some n =>
      if (length row =? n)%nat then scale scaler row
      else Raise (ValueError
             ("X has " +:+ pretty (length row)
              +:+ " features, but StandardScaler is expecting "
              +:+ pretty n +:+ " features as input."))
  end.

(** A fitted [RandomForestRegressor]: [predict(row)[0]]. *)
Record Regressor : Type := {
  predict : list float -> result float
}.

(** The service object: [risk_models] in insertion order, [scalers]. *)
Record RiskForecastingService : Type := {
  risk_models : list (string * Regressor);
  scalers : gmap string Scaler
}.

Definition risk_types : list string :=
  ["diabetes"; "cardiovascular"; "hypertension"; "obesity"; "stroke"]%string.

(** [_generate_mock_training_data]: [n_features = 15] columns. *)
Definition n_features : nat := 15.

(** [__init__] when [_initialize_models] succeeds: one regressor and one
    scaler per risk type, fitted on the 15-column matrix. *)
Definition __init__ (scale : string -> list value -> result (list float))
    (predict : string -> list float -> result float)
  : RiskForecastingService :=
  {| risk_models :=
       map (fun risk_type => (risk_type, {| predict := predict risk_type |}))
           risk_types;
     scalers :=
       list_to_map
         (map (fun risk_type =>
                 (risk_type, {| n_features_in := Some n_features;
                                scale := scale risk_type |}))
              risk_types) |}.

(** The loop of [forecast_risk] over [self.risk_models]. *)
Fixpoint predict_risks (self : RiskForecastingService)
    (models : list (string * Regressor)) (features : list value)
    (health_metrics : HealthMetrics) (lifestyle_data : LifestyleData)
    (risk_predictions : list (string * num))
  : result (list (string * num)) :=
  match models with
  | [] => Ok risk_predictions
  | (risk_type, model) :: rest =>
      risk_score ←
        match scalers self !! risk_type with
        | Some scaler =>
            features_scaled ← scaler_transform scaler features;
            risk_score ← predict model features_scaled;
            Ok (max (Int 0) (min (Int 1) (Float risk_score)))
        | None =>
            _mock_risk_calculation risk_type health_metrics lifestyle_data
        end;
      predict_risks self rest features health_metrics lifestyle_data
        (risk_predictions ++ [(risk_type, risk_score)])
  end.

(** The dict [forecast_risk] returns. *)
Module RiskPrediction.
Record t : Type := {
  probability : float;
  risk_level : string;
  trend : string
}.
End RiskPrediction.

Module Forecast.
Record t : Type := {
  time_horizon_years : Z;
  overall_health_score : Z;
  risk_predictions : list (string * RiskPrediction.t);
  risk_factors : list RiskFactor.t;
  recommendations : list Recommendation.t;
  confidence_interval : float * float;
  last_updated : string
}.
End Forecast.

(** [forecast_risk]. *)
Definition forecast_risk (self : RiskForecastingService)
    (health_metrics : HealthMetrics) (health_extras : HealthExtras)
    (lifestyle_data : LifestyleData) (lifestyle_extras : LifestyleExtras)
    (time_horizon : Z) (user_id : option string) : result Forecast.t :=
  try_except
    (let features :=
       _extract_features health_metrics health_extras
         lifestyle_data lifestyle_extras in
     risk_predictions ←
       predict_risks self (risk_models self) features
         health_metrics lifestyle_data [];
     overall_score ←
       _calculate_overall_health_score
         (map (fun p => (fst p, to_float (snd p))) risk_predictions);
     risk_factors ← _identify_risk_factors health_metrics lifestyle_data;
     recommendations ←
       _generate_recommendations risk_predictions risk_factors
         health_metrics lifestyle_data;
     Ok {| Forecast.time_horizon_years := time_horizon;
           Forecast.overall_health_score := overall_score;
           Forecast.risk_predictions :=
             map (fun p =>
                    (fst p,
                     {| RiskPrediction.probability := to_float (snd p);
                        RiskPrediction.risk_level := _categorize_risk (snd p);
                        RiskPrediction.trend := _predict_trend (fst p) (snd p) |}))
                 risk_predictions;
           Forecast.risk_factors := risk_factors;
           Forecast.recommendations := recommendations;
           Forecast.confidence_interval := (0.8, 0.95)%float;
           Forecast.last_updated := "2024-01-01T00:00:00Z" |})
    (fun e => Raise (Exception_ ("Risk forecasting failed: " +:+ str_exn e))).

End RiskForecastingRest.


(** ** [routes/risk_forecasting.py] *)
Module RiskRoutes.
Import Py RiskForecasting RiskForecastingRest.

(** The request models, with the field types pydantic enforces. *)
Module HealthMetricsModel.
Record t : Type := {
  weight : float;
  height : float;
  blood_pressure_systolic : Z;
  blood_pressure_diastolic : Z;
  heart_rate : Z;
  cholesterol_total : option float;
  cholesterol_hdl : option float;
  cholesterol_ldl : option float;
  blood_glucose : option float;
  hba1c : option float
}.
End HealthMetricsModel.

Module LifestyleDataModel.
Record t : Type := {
  age : Z;
  gender : string;
  smoking_status : string;
  alcohol_consumption : string;
  physical_activity_level : string;
  diet_quality : string;
  stress_level : string;
  sleep_hours : float;
  family_history : gmap string bool
}.
End LifestyleDataModel.

Record RiskForecastRequest : Type := {
  health_metrics : HealthMetricsModel.t;
  lifestyle_data : LifestyleDataModel.t;
  time_horizon_years : Z;
  user_id : option string
}.

(** [.dict()]: every field becomes a key; an unset optional field is
    the key with value [None]. *)
Definition optional (x : option float) : option value :=
  Some (match x with Some f => VNum (Float f) | None => VNone end).

Definition health_dict (m : HealthMetricsModel.t) : HealthMetrics :=
  {| weight := Some (HealthMetricsModel.weight m);
     height := Some (HealthMetricsModel.height m);
     blood_pressure_systolic :=
       Some (HealthMetricsModel.blood_pressure_systolic m) |}.

Definition health_dict_rest (m : HealthMetricsModel.t) : HealthExtras :=
  {| blood_pressure_diastolic :=
       Some (VNum (Int (HealthMetricsModel.blood_pressure_diastolic m)));
     heart_rate := Some (VNum (Int (HealthMetricsModel.heart_rate m)));
     cholesterol_total := optional (HealthMetricsModel.cholesterol_total m);
     cholesterol_hdl := optional (HealthMetricsModel.cholesterol_hdl m);
     cholesterol_ldl := optional (HealthMetricsModel.cholesterol_ldl m);
     blood_glucose := optional (HealthMetricsModel.blood_glucose m);
     hba1c := optional (HealthMetricsModel.hba1c m) |}.

Definition lifestyle_dict (m : LifestyleDataModel.t) : LifestyleData :=
  {| age := Some (LifestyleDataModel.age m);
     physical_activity_level :=
       Some (LifestyleDataModel.physical_activity_level m) |}.

Definition lifestyle_dict_rest (m : LifestyleDataModel.t) : LifestyleExtras :=
  {| gender := Some (LifestyleDataModel.gender m);
     smoking_status := Some (LifestyleDataModel.smoking_status m);
     diet_quality := Some (LifestyleDataModel.diet_quality m);
     sleep_hours := Some (VNum (Float (LifestyleDataModel.sleep_hours m))) |}.

Section Routes.

(** The module-level [risk_service]. *)
Variable risk_service : RiskForecastingService.

Definition call_forecast (request : RiskForecastRequest)
  : result Forecast.t :=
  forecast_risk risk_service
    (health_dict (health_metrics request))
    (health_dict_rest (health_metrics request))
    (lifestyle_dict (lifestyle_data request))
    (lifestyle_dict_rest (lifestyle_data request))
    (time_horizon_years request) (user_id request).

(** [forecast_health_risk]. *)
Definition forecast_health_risk (request : RiskForecastRequest)
  : result (ActivityRoutes.Envelope Forecast.t) :=
  try_except
    (result ← call_forecast request;
     Ok {| ActivityRoutes.success := true; ActivityRoutes.payload := result |})
    (fun e =>
       Raise (HTTPException 500 ("Risk forecasting failed: " +:+ str_exn e))).

(** One entry of [compare_scenarios]. *)
Inductive ScenarioEntry : Type :=
| ScenarioResult (scenario_id : nat) (scenario_name : string)
                 (result : Forecast.t)
| ScenarioError (scenario_id : nat) (error : string).

Record Comparison : Type := {
  scenarios : list ScenarioEntry;
  total_scenarios : nat
}.

Definition scenario_entry (i : nat) (request : RiskForecastRequest)
  : ScenarioEntry :=
  match call_forecast request with
  | Ok result => ScenarioResult i ("Scenario " +:+ pretty (i + 1)%nat) result
  | Raise e => ScenarioError i (str_exn e)
  end.

(** [compare_scenarios]. *)
Definition compare_scenarios (requests : list RiskForecastRequest)
  : result (ActivityRoutes.Envelope Comparison) :=
  try_except
    (let results := imap scenario_entry requests in
     Ok {| ActivityRoutes.success := true;
           ActivityRoutes.payload :=
             {| scenarios := results; total_scenarios := length results |} |})
    (fun e =>
       Raise (HTTPException 500 ("Scenario comparison failed: " +:+ str_exn e))).

(** [suggest_interventions], the route. *)
Definition suggest_interventions_route (request : RiskForecastRequest)
  : result (ActivityRoutes.Envelope Interventions.t) :=
  try_except
    (interventions ←
       suggest_interventions
         (health_dict (health_metrics request))
         (lifestyle_dict (lifestyle_data request))
         (user_id request);
     Ok {| ActivityRoutes.success := true;
           ActivityRoutes.payload := interventions |})
    (fun e =>
       Raise (HTTPException 500
                ("Intervention suggestion failed: " +:+ str_exn e))).

End Routes.

End RiskRoutes.

(** ** [routes/chat.py] *)
Module ChatRoutes.
Import Py Chat.

(** The answers of the conversation routes. *)
Record ChatData : Type := {
  response : string;
  conversation_id : string;
  suggestions : list string;
  context : ContextMeta.t
}.

Record Started : Type := {
  started_id : string;
  started_context : string
}.

Record History : Type := {
  history_id : string;
  messages : list Message.t
}.

Record Deleted : Type := {
  deleted_success : bool;
  deleted_message : string
}.

Section Routes.

Variable env : Env.

(** [chat]. *)
Definition chat (message user_id context : string)
    (conversation_id : option string)
  : M (ActivityRoutes.Envelope ChatData) :=
  try_except_M
    (reply ← process_message env message user_id context conversation_id;
     mret {| ActivityRoutes.success := true;
             ActivityRoutes.payload :=
               {| response := Reply.message reply;
                  conversation_id := Reply.conversation_id reply;
                  suggestions := Reply.suggestions reply;
                  context := Reply.context reply |} |})
    (fun e =>
       raise (HTTPException 500 ("Chat processing failed: " +:+ str_exn e))).

(** [start_conversation], the route. *)
Definition start_conversation_route (user_id context : string)
  : M (ActivityRoutes.Envelope Started) :=
  try_except_M
    (conversation_id ← start_conversation env user_id context;
     mret {| ActivityRoutes.success := true;
             ActivityRoutes.payload :=
               {| started_id := conversation_id;
                  started_context := context |} |})
    (fun e =>
       raise (HTTPException 500
                ("Failed to start conversation: " +:+ str_exn e))).

(** [get_conversation_history], the route. *)
Definition get_conversation_history_route (conversation_id : string)
  : M (ActivityRoutes.Envelope History) :=
  try_except_M
    (history ← get_conversation_history conversation_id;
     mret {| ActivityRoutes.success := true;
             ActivityRoutes.payload :=
               {| history_id := conversation_id; messages := history |} |})
    (fun e =>
       raise (HTTPException 500
                ("Failed to get conversation history: " +:+ str_exn e))).

(** [delete_conversation], the route. *)
Definition delete_conversation_route (conversation_id : string) : M Deleted :=
  try_except_M
    (_ ← delete_conversation conversation_id;
     mret {| deleted_success := true;
             deleted_message := "Conversation deleted successfully" |})
    (fun e =>
       raise (HTTPException 500
                ("Failed to delete conversation: " +:+ str_exn e))).

End Routes.

End ChatRoutes.


(* ================================================================== *)
(** * Part IV.  Further properties                                    *)
(* ================================================================== *)

(** ** The order of binary64 numbers *)
Module FloatOrder.

Ltac order_cases :=
  repeat match goal with
  | H : context [Pos.compare_cont Eq ?x ?y] |- _ =>
      change (Pos.compare_cont Eq x y) with (Pos.compare x y) in H
  | |- context [Pos.compare_cont Eq ?x ?y] =>
      change (Pos.compare_cont Eq x y) with (Pos.compare x y)
  end;
  repeat match goal with
  | H : context [Z.compare ?x ?y] |- _ => destruct (Z.compare_spec x y)
  | |- context [Z.compare ?x ?y] => destruct (Z.compare_spec x y)
  | H : context [Pos.compare ?x ?y] |- _ => destruct (Pos.compare_spec x y)
  | |- context [Pos.compare ?x ?y] => destruct (Pos.compare_spec x y)
  end;
  subst; cbn in *; try discriminate; try reflexivity; try lia.

Lemma SFltb_trans (a b c : spec_float) :
  SFltb a b = true -> SFltb b c = true -> SFltb a c = true.
Proof.
  unfold SFltb.
  destruct a as [[]|[]| |[] ma ea], b as [[]|[]| |[] mb eb],
    c as [[]|[]| |[] mc ec]; cbn; try discriminate; try reflexivity;
    intros H1 H2; order_cases.
Qed.

Lemma SFltb_asym (a b : spec_float) :
  SFltb a b = true -> SFltb b a = false.
Proof.
  unfold SFltb.
  destruct a as [[]|[]| |[] ma ea], b as [[]|[]| |[] mb eb];
    cbn; try discriminate; try reflexivity; intros H1; order_cases.
Qed.

Lemma ltb_trans (a b c : float) :
  PrimFloat.ltb a b = true -> PrimFloat.ltb b c = true ->
  PrimFloat.ltb a c = true.
Proof. rewrite !ltb_spec. apply SFltb_trans. Qed.

Lemma ltb_asym (a b : float) :
  PrimFloat.ltb a b = true -> PrimFloat.ltb b a = false.
Proof. rewrite !ltb_spec. apply SFltb_asym. Qed.

End FloatOrder.

(** ** Food recognition, continued *)
Module FoodRecognitionRestSpec.
Import Py FoodRecognition FoodRecognitionRest.

(** X1: the health score of every nutrition record lies between 65 and
    100: the penalties sum to at most 35, so the lower clamp at 0 never
    acts. *)
Theorem health_score_at_least_65 (r : FoodRecord) :
  65 <= _calculate_health_score r <= 100.
Proof.
  unfold _calculate_health_score.
  destruct (gt (calories r) (Int 300)), (gt (calories r) (Int 200)),
    (gt (protein r) (Int 20)), (gt (protein r) (Int 10)),
    (gt (fat r) (Int 15)), (gt (fat r) (Int 10)),
    (gt (fiber r) (Int 5)), (gt (fiber r) (Int 2)); lia.
Qed.

Lemma food_names_are_the_keys :
  list_to_set food_names = dom _load_food_database.
Proof. vm_compute. reflexivity. Qed.

(** X2: whatever the random draws, [recognize_food] on the service of
    [__init__] returns; the food it names is a key of the table, the
    nutrition, vitamins and health score are those of that key's
    record, and the ingredients come from the ingredient table: the
    fallback record and the "Unknown ingredients" default are never
    used. *)
Theorem recognize_food_returns_table_entry (draws : Draws)
    (user_id : option string) :
  exists (res : Recognition.t) (rec : FoodRecord),
    recognize_food __init__ draws user_id = Ok res
    /\ In (Recognition.food_name res) food_names
    /\ _load_food_database !! Recognition.food_name res = Some rec
    /\ Recognition.nutrition res
       = {| Nutrition.calories := calories rec;
            Nutrition.protein := protein rec;
            Nutrition.carbs := carbs rec;
            Nutrition.fat := fat rec;
            Nutrition.fiber := fiber rec |}
    /\ Recognition.vitamins res = vitamins rec
    /\ Recognition.health_score res = _calculate_health_score rec
    /\ Recognition.ingredients res <> ["Unknown ingredients"%string].
Proof.
  unfold recognize_food, _simulate_recognition.
  change (length food_names) with 8%nat.
  assert (Hlt : (choice_index draws mod 8 < 8)%nat)
    by (apply Nat.mod_upper_bound; discriminate).
  destruct (choice_index draws mod 8)%nat
    as [|[|[|[|[|[|[|[|n]]]]]]]]; try lia;
    (eexists; eexists; split; [reflexivity|];
     split; [vm_compute; tauto|];
     split; [vm_compute; reflexivity|];
     repeat split; try (vm_compute; discriminate)).
Qed.

Lemma lower_ascii_idempotent (c : ascii) :
  lower_ascii (lower_ascii c) = lower_ascii c.
Proof.
  destruct c as [[] [] [] [] [] [] [] []]; vm_compute; reflexivity.
Qed.

Lemma lower_idempotent (s : string) : lower (lower s) = lower s.
Proof.
  induction s as [|c t IH]; cbn [lower]; [reflexivity|].
  rewrite lower_ascii_idempotent, IH. reflexivity.
Qed.

(** The keys of the two advisory tables are lower-case. *)
Lemma benefits_only_for_lower_case (name : string) :
  lower name <> name -> _get_health_benefits name = ["Nutritious food"%string].
Proof.
  intros Hcase. unfold _get_health_benefits, get.
  match goal with |- default _ (?m !! _) = _ =>
    destruct (m !! name) as [l|] eqn:H; [|reflexivity] end.
  exfalso. apply elem_of_list_to_map_2 in H.
  repeat (apply elem_of_cons in H as [[= -> _]|H];
          [apply Hcase; reflexivity|]).
  apply elem_of_nil in H. exact H.
Qed.

Lemma tips_only_for_lower_case (name : string) :
  lower name <> name -> _get_preparation_tips name = ["Enjoy fresh"%string].
Proof.
  intros Hcase. unfold _get_preparation_tips, get.
  match goal with |- default _ (?m !! _) = _ =>
    destruct (m !! name) as [l|] eqn:H; [|reflexivity] end.
  exfalso. apply elem_of_list_to_map_2 in H.
  repeat (apply elem_of_cons in H as [[= -> _]|H];
          [apply Hcase; reflexivity|]).
  apply elem_of_nil in H. exact H.
Qed.

(** X3: [get_nutrition_info] finds the record under the lower-cased
    name but looks the benefits and the tips up under the name as
    given; so for a name that is not already lower case the record is
    the table's and the advice is the generic default. *)
Theorem advice_is_case_sensitive (name : string) (info : NutritionInfo) :
  get_nutrition_info __init__ name = Ok info ->
  lower name <> name ->
  _load_food_database !! lower name = Some (nutrition info)
  /\ health_benefits info = ["Nutritious food"%string]
  /\ preparation_tips info = ["Enjoy fresh"%string].
Proof.
  unfold get_nutrition_info. cbn [food_database __init__].
  destruct (_load_food_database !! lower name) as [rec|]; [|discriminate].
  intros [= <-] Hcase. cbn [nutrition health_benefits preparation_tips].
  split; [reflexivity|]. split.
  - apply benefits_only_for_lower_case. exact Hcase.
  - apply tips_only_for_lower_case. exact Hcase.
Qed.

(** X3 at "Salmon": salmon's record with the default benefits, where
    "salmon" has benefits of its own. *)
Lemma advice_is_case_sensitive_witness :
  exists info : NutritionInfo,
    get_nutrition_info __init__ "Salmon" = Ok info
    /\ calories (nutrition info) = Int 208
    /\ health_benefits info = ["Nutritious food"%string]
    /\ _get_health_benefits "salmon"
       = ["High in omega-3 fatty acids"; "Excellent protein source";
          "Rich in vitamin D"]%string.
Proof.
  destruct (get_nutrition_info __init__ "Salmon") as [info|e] eqn:H;
    [|vm_compute in H; discriminate].
  destruct (advice_is_case_sensitive "Salmon" info H) as (_ & Hb & _);
    [vm_compute; discriminate|].
  exists info. split; [reflexivity|].
  split; [vm_compute in H; injection H as <-; reflexivity|].
  split; [exact Hb|reflexivity].
Defined.


End FoodRecognitionRestSpec.

(** ** Risk forecasting, continued *)
Module RiskForecastingRestSpec.
Import Py RiskForecasting RiskForecastingRest.

Lemma extract_features_has_16 hm hx ld lx :
  length (_extract_features hm hx ld lx) = 16%nat.
Proof. reflexivity. Qed.

Lemma forecast_risk_raises (self : RiskForecastingService)
    (hm : HealthMetrics) (hx : HealthExtras)
    (ld : LifestyleData) (lx : LifestyleExtras)
    (time_horizon : Z) (user_id : option string) :
  (forall (risk_type : string) (model : Regressor),
      In (risk_type, model) (risk_models self) ->
      exists scaler : Scaler,
        scalers self !! risk_type = Some scaler
        /\ n_features_in scaler <> Some 16%nat) ->
  exists detail : string,
    forecast_risk self hm hx ld lx time_horizon user_id
    = Raise (Exception_ ("Risk forecasting failed: " +:+ detail)).
Proof.
  intros Hfit. unfold forecast_risk.
  destruct (risk_models self) as [|[risk_type model] rest] eqn:Hmodels.
  - cbn [predict_risks mbind result_bind map].
    eexists. vm_compute. reflexivity.
  - destruct (Hfit risk_type model (or_introl eq_refl)) as [scaler [Hsc Hn]].
    cbn [predict_risks]. rewrite Hsc. unfold scaler_transform.
    destruct (n_features_in scaler) as [n|].
    + rewrite extract_features_has_16.
      destruct (Nat.eqb_spec 16 n) as [<-|_]; [congruence|].
      cbn [mbind result_bind try_except]. eexists. reflexivity.
    + cbn [mbind result_bind try_except]. eexists. reflexivity.
Qed.

(** X4: whenever every model of the service has a scaler that is
    unfitted or fitted on a column count other than 16, [forecast_risk]
    raises "Risk forecasting failed: ..." for every input: the feature
    vector has 16 entries, so the first scaler refuses it, and a
    service without models divides by zero in the aggregate score.
    The service of [__init__] is such a service (15 columns). *)
Theorem forecast_risk_never_returns (self : RiskForecastingService)
    (hm : HealthMetrics) (hx : HealthExtras)
    (ld : LifestyleData) (lx : LifestyleExtras)
    (time_horizon : Z) (user_id : option string) :
  (forall (risk_type : string) (model : Regressor),
      In (risk_type, model) (risk_models self) ->
      exists scaler : Scaler,
        scalers self !! risk_type = Some scaler
        /\ n_features_in scaler <> Some 16%nat) ->
  exists detail : string,
    forecast_risk self hm hx ld lx time_horizon user_id
    = Raise (Exception_ ("Risk forecasting failed: " +:+ detail)).
Proof. apply forecast_risk_raises. Qed.

(** The service of [__init__] has a scaler fitted on 15 columns for
    each of its models. *)
Lemma init_scalers_fitted_on_15
    (scale : string -> list value -> result (list float))
    (predict : string -> list float -> result float)
    (risk_type : string) (model : Regressor) :
  In (risk_type, model) (risk_models (__init__ scale predict)) ->
  exists scaler : Scaler,
    scalers (__init__ scale predict) !! risk_type = Some scaler
    /\ n_features_in scaler <> Some 16%nat.
Proof.
  intros Hin. cbn [risk_models __init__ risk_types map In] in Hin.
  repeat (destruct Hin as [[= <- <-]|Hin];
          [eexists; split; [vm_compute; reflexivity|discriminate]|]).
  destruct Hin.
Qed.

Definition sample_extras : HealthExtras :=
  {| blood_pressure_diastolic := Some (VNum (Int 95));
     heart_rate := Some (VNum (Int 72));
     cholesterol_total := Some VNone;
     cholesterol_hdl := Some VNone;
     cholesterol_ldl := Some VNone;
     blood_glucose := Some (VNum (Float 5.4));
     hba1c := Some VNone |}.

Definition sample_lifestyle_extras : LifestyleExtras :=
  {| gender := Some "female"%string;
     smoking_status := Some "former"%string;
     diet_quality := Some "good"%string;
     sleep_hours := Some (VNum (Float 6.5)) |}.

(** X4 on the service of [__init__]. *)
Lemma forecast_risk_never_returns_witness :
  exists detail : string,
    forecast_risk
      (__init__ (fun _ _ => Ok []) (fun _ _ => Ok 0.2%float))
      example_metrics sample_extras example_lifestyle sample_lifestyle_extras
      5 None
    = Raise (Exception_ ("Risk forecasting failed: " +:+ detail)).
Proof.
  apply (forecast_risk_never_returns
           (__init__ (fun _ _ => Ok []) (fun _ _ => Ok 0.2%float))).
  apply init_scalers_fitted_on_15.
Defined.

(** X5: the risk level and the trend always go together: low with
    stable (score below 0.1), moderate with increasing (from 0.1,
    below 0.3), high with rapidly_increasing (everything else, a NaN
    included). *)
Theorem level_and_trend_agree (risk_type : string) (score : num) :
  (lt score (Float 0.1) = true
   /\ _categorize_risk score = "low"%string
   /\ _predict_trend risk_type score = "stable"%string)
  \/ (lt score (Float 0.1) = false /\ lt score (Float 0.3) = true
      /\ _categorize_risk score = "moderate"%string
      /\ _predict_trend risk_type score = "increasing"%string)
  \/ (lt score (Float 0.1) = false /\ lt score (Float 0.3) = false
      /\ _categorize_risk score = "high"%string
      /\ _predict_trend risk_type score = "rapidly_increasing"%string).
Proof.
  unfold _categorize_risk, _predict_trend.
  destruct (lt score (Float 0.1)); [left; repeat split|].
  destruct (lt score (Float 0.3)); [right; left|right; right]; repeat split.
Qed.

Ltac table_cases H :=
  apply elem_of_list_to_map_2 in H;
  repeat (apply elem_of_cons in H as [[= _ ->]|H]; [lia|]);
  apply elem_of_nil in H; destruct H.

(** X6: for every string, known or not, the smoking code lies in
    0..2, the activity code in 0..4 and the diet code in 0..3. *)
Theorem encodings_stay_in_range (s : string) :
  0 <= _encode_smoking_status s <= 2
  /\ 0 <= _encode_activity_level s <= 4
  /\ 0 <= _encode_diet_quality s <= 3.
Proof.
  unfold _encode_smoking_status, _encode_activity_level, _encode_diet_quality, get.
  repeat split;
    match goal with |- context [default _ (?m !! s)] =>
      destruct (m !! s) as [z|] eqn:H; cbn [default from_option id]; [table_cases H|lia]
    end.
Qed.

Definition flags (name : string) (factors : list RiskFactor.t) : bool :=
  existsb (fun f => String.eqb (RiskFactor.factor f) name) factors.

Definition recommends (name : string) (recs : list Recommendation.t) : bool :=
  existsb (fun r => String.eqb (Recommendation.category r) name) recs.

Lemma above_30_above_25 (bmi : float) :
  PrimFloat.ltb 30 bmi = true -> PrimFloat.ltb 25 bmi = true.
Proof.
  intros H. apply (FloatOrder.ltb_trans 25 30 bmi); [reflexivity|exact H].
Qed.

Definition count3 (a b c : bool) : nat :=
  (Nat.b2n a + Nat.b2n b + Nat.b2n c)%nat.

(** Which factors are flagged, and which recommendations are made. *)
Lemma flagged_factors (hm : HealthMetrics) (ld : LifestyleData)
    (bmi : float) :
  bmi_of hm = Ok bmi ->
  exists factors : list RiskFactor.t,
    _identify_risk_factors hm ld = Ok factors
    /\ flags "age" factors = (default 40 (age ld) >? 65)
    /\ flags "hypertension" factors
       = (default 120 (blood_pressure_systolic hm) >? 140)
    /\ flags "obesity" factors = PrimFloat.ltb 30 bmi
    /\ flags "physical_inactivity" factors
       = String.eqb (default "moderate"%string (physical_activity_level ld))
                    "sedentary"
    /\ (length factors <= 4)%nat.
Proof.
  intros Hbmi. unfold _identify_risk_factors. rewrite Hbmi.
  cbn [mbind result_bind].
  destruct (default 40 (age ld) >? 65);
    destruct (default 120 (blood_pressure_systolic hm) >? 140);
    destruct (PrimFloat.ltb 30 bmi);
    destruct (String.eqb _ "sedentary");
    (eexists; split; [reflexivity|]; repeat split; try (vm_compute; reflexivity); vm_compute; lia).
Qed.

Lemma made_recommendations (hm : HealthMetrics) (ld : LifestyleData)
    (predictions : list (string * num)) (factors : list RiskFactor.t)
    (bmi : float) :
  bmi_of hm = Ok bmi ->
  exists recs : list Recommendation.t,
    _generate_recommendations predictions factors hm ld = Ok recs
    /\ recommends "cardiovascular" recs
       = (default 120 (blood_pressure_systolic hm) >? 130)
    /\ recommends "weight_management" recs = PrimFloat.ltb 25 bmi
    /\ recommends "physical_activity" recs
       = (String.eqb (default "moderate"%string (physical_activity_level ld))
                     "sedentary"
          || String.eqb (default "moderate"%string (physical_activity_level ld))
                        "light")
    /\ length recs
       = count3 (default 120 (blood_pressure_systolic hm) >? 130)
           (PrimFloat.ltb 25 bmi)
           (String.eqb (default "moderate"%string
                          (physical_activity_level ld)) "sedentary"
            || String.eqb (default "moderate"%string
                             (physical_activity_level ld)) "light").
Proof.
  intros Hbmi. unfold _generate_recommendations. rewrite Hbmi.
  cbn [mbind result_bind].
  destruct (default 120 (blood_pressure_systolic hm) >? 130);
    destruct (PrimFloat.ltb 25 bmi);
    destruct (String.eqb _ "sedentary"); destruct (String.eqb _ "light");
    (eexists; split; [reflexivity|]; repeat split; try (vm_compute; reflexivity); vm_compute; lia).
Qed.

(** X7: whenever [_identify_risk_factors] returns,
    [_generate_recommendations] returns as well, and every flagged
    modifiable factor has its recommendation: hypertension a
    cardiovascular one, obesity a weight_management one,
    physical_inactivity a physical_activity one. *)
Theorem flagged_factors_get_recommendations
    (hm : HealthMetrics) (ld : LifestyleData)
    (predictions : list (string * num)) (factors : list RiskFactor.t) :
  _identify_risk_factors hm ld = Ok factors ->
  exists recs : list Recommendation.t,
    _generate_recommendations predictions factors hm ld = Ok recs
    /\ (flags "hypertension" factors = true ->
        recommends "cardiovascular" recs = true)
    /\ (flags "obesity" factors = true ->
        recommends "weight_management" recs = true)
    /\ (flags "physical_inactivity" factors = true ->
        recommends "physical_activity" recs = true).
Proof.
  intros Hf.
  destruct (bmi_of hm) as [bmi|e] eqn:Hbmi.
  - destruct (flagged_factors hm ld bmi Hbmi)
      as (factors' & Hf' & _ & Hh & Ho & Hp & _).
    rewrite Hf in Hf'. injection Hf' as <-.
    destruct (made_recommendations hm ld predictions factors bmi Hbmi)
      as (recs & Hr & Hc & Hw & Ha & _).
    exists recs. split; [exact Hr|].
    rewrite Hh, Ho, Hp, Hc, Hw, Ha. repeat split.
    + lia.
    + apply above_30_above_25.
    + intros ->. reflexivity.
  - unfold _identify_risk_factors in Hf. rewrite Hbmi in Hf.
    cbn [mbind result_bind] in Hf. discriminate.
Qed.

(** X7 at age 70, systolic 150, BMI 32, sedentary: all four factors
    are flagged. *)
Lemma flagged_factors_get_recommendations_witness :
  exists (factors : list RiskFactor.t) (recs : list Recommendation.t),
    _identify_risk_factors example_metrics example_lifestyle = Ok factors
    /\ map RiskFactor.factor factors
       = ["age"; "hypertension"; "obesity"; "physical_inactivity"]%string
    /\ _generate_recommendations [] factors example_metrics example_lifestyle
       = Ok recs
    /\ recommends "cardiovascular" recs = true.
Proof.
  destruct (_identify_risk_factors example_metrics example_lifestyle)
    as [factors|e] eqn:H; [|vm_compute in H; discriminate].
  destruct (flagged_factors_get_recommendations
              example_metrics example_lifestyle [] factors H)
    as (recs & Hrecs & Hcardio & _).
  exists factors, recs. split; [reflexivity|].
  split; [vm_compute in H; injection H as <-; reflexivity|].
  split; [exact Hrecs|].
  apply Hcardio. vm_compute in H. injection H as <-. reflexivity.
Defined.

Definition suggests (name : string) (out : Interventions.t) : bool :=
  existsb (fun i => String.eqb (Intervention.name i) name)
          (Interventions.interventions out).

Lemma made_interventions (hm : HealthMetrics) (ld : LifestyleData)
    (user_id : option string) (bmi : float) :
  bmi_of hm = Ok bmi ->
  exists out : Interventions.t,
    suggest_interventions hm ld user_id = Ok out
    /\ suggests "DASH Diet" out
       = (default 120 (blood_pressure_systolic hm) >? 130)
    /\ suggests "Calorie Restriction" out = PrimFloat.ltb 25 bmi
    /\ suggests "Progressive Walking Program" out
       = (String.eqb (default "moderate"%string (physical_activity_level ld))
                     "sedentary"
          || String.eqb (default "moderate"%string (physical_activity_level ld))
                        "light")
    /\ Interventions.total_count out
       = length (Interventions.interventions out)
    /\ length (Interventions.interventions out)
       = count3 (default 120 (blood_pressure_systolic hm) >? 130)
           (PrimFloat.ltb 25 bmi)
           (String.eqb (default "moderate"%string
                          (physical_activity_level ld)) "sedentary"
            || String.eqb (default "moderate"%string
                             (physical_activity_level ld)) "light").
Proof.
  intros Hbmi. unfold suggest_interventions. rewrite Hbmi.
  cbn [mbind result_bind].
  destruct (default 120 (blood_pressure_systolic hm) >? 130);
    destruct (PrimFloat.ltb 25 bmi);
    destruct (String.eqb _ "sedentary"); destruct (String.eqb _ "light");
    (eexists; split; [reflexivity|]; repeat split; vm_compute; reflexivity).
Qed.

(** X8: [suggest_interventions] and [_generate_recommendations] fire
    on the same three conditions: both return or both raise the BMI's
    exception; when they return there are as many interventions as
    recommendations (at most three, and [total_count] says so), the
    DASH diet with the cardiovascular recommendation, the calorie
    restriction with weight management, the walking program with
    physical activity. *)
Theorem interventions_match_recommendations
    (hm : HealthMetrics) (ld : LifestyleData)
    (predictions : list (string * num)) (factors : list RiskFactor.t)
    (user_id : option string) :
  match _generate_recommendations predictions factors hm ld,
        suggest_interventions hm ld user_id with
  | Ok recs, Ok out =>
      length (Interventions.interventions out) = length recs
      /\ Interventions.total_count out = length recs
      /\ (length recs <= 3)%nat
      /\ suggests "DASH Diet" out = recommends "cardiovascular" recs
      /\ suggests "Calorie Restriction" out
         = recommends "weight_management" recs
      /\ suggests "Progressive Walking Program" out
         = recommends "physical_activity" recs
  | Raise e1, Raise e2 => e1 = e2 /\ bmi_of hm = Raise e1
  | _, _ => False
  end.
Proof.
  destruct (bmi_of hm) as [bmi|e] eqn:Hbmi.
  - destruct (made_recommendations hm ld predictions factors bmi Hbmi)
      as (recs & -> & Hc & Hw & Ha & Hl).
    destruct (made_interventions hm ld user_id bmi Hbmi)
      as (out & -> & Hd & Hr & Hp & Ht & Hn).
    rewrite Ht, Hn, Hl, Hd, Hr, Hp, Hc, Hw, Ha.
    repeat split.
    unfold count3.
    destruct (_ >? 130), (PrimFloat.ltb 25 bmi), (_ || _); cbn; lia.
  - unfold _generate_recommendations, suggest_interventions. rewrite Hbmi.
    cbn [mbind result_bind]. split; reflexivity.
Qed.

(** X9: whenever the BMI is defined, the fallback risk score is a
    float between 0.05 and 0.5499999999999999, and the clamp to [0,1]
    leaves it as it is. *)
Theorem mock_risk_between_005_and_055 (risk_type : string)
    (hm : HealthMetrics) (ld : LifestyleData) (bmi : float) :
  bmi_of hm = Ok bmi ->
  exists r : float,
    _mock_risk_calculation risk_type hm ld = Ok (Float r)
    /\ PrimFloat.leb 0.05 r = true
    /\ PrimFloat.leb r 0x1.1999999999999p-1 = true
    /\ clamp01 r = Float r.
Proof.
  unfold bmi_of, _mock_risk_calculation.
  set (a := default 40 (age ld)).
  set (b := default 120 (blood_pressure_systolic hm)).
  set (l := default "moderate"%string (physical_activity_level ld)).
  destruct (truediv (default 170%float (height hm)) 100) as [h|e];
    [|discriminate].
  cbn [mbind result_bind].
  destruct (pow2 h) as [h2|e]; [|discriminate].
  cbn [mbind result_bind]. intros ->. cbn [mbind result_bind].
  destruct (a >? 65); destruct (a >? 45);
    destruct (b >? 140); destruct (b >? 130);
    destruct (PrimFloat.ltb 30 bmi); destruct (PrimFloat.ltb 25 bmi);
    destruct (String.eqb l "sedentary");
    destruct (String.eqb l "very_active");
    destruct (String.eqb l "active");
    (eexists; split; [vm_compute; reflexivity|repeat split; vm_compute; reflexivity]).
Qed.

(** X9 at age 30, BMI 20.8, active: the lowest score. *)
Lemma mock_risk_between_005_and_055_witness :
  exists r : float,
    _mock_risk_calculation "obesity"
      {| weight := Some 60%float; height := Some 170%float;
         blood_pressure_systolic := Some 118 |}
      {| age := Some 30; physical_activity_level := Some "active"%string |}
    = Ok (Float r)
    /\ PrimFloat.leb 0.05 r = true
    /\ PrimFloat.leb r 0x1.1999999999999p-1 = true
    /\ clamp01 r = Float r.
Proof.
  eapply (mock_risk_between_005_and_055 "obesity"). vm_compute. reflexivity.
Defined.

Import RiskRoutes.

Definition is_scenario_error (e : ScenarioEntry) : bool :=
  match e with ScenarioError _ _ => true | ScenarioResult _ _ _ => false end.

Definition scenario_id_of (e : ScenarioEntry) : nat :=
  match e with ScenarioError i _ | ScenarioResult i _ _ => i end.

(** X10: on the service of [__init__], the forecast route answers
    every request with status 500, and the comparison route answers
    every list of requests with success and one entry per request, in
    order, each carrying an error. *)
Theorem forecast_routes_on_the_initialised_service
    (scale : string -> list value -> result (list float))
    (predict : string -> list float -> result float) :
  (forall request : RiskForecastRequest,
      exists detail : string,
        forecast_health_risk (__init__ scale predict) request
        = Raise (HTTPException 500
                   ("Risk forecasting failed: Risk forecasting failed: "
                    +:+ detail)))
  /\ (forall requests : list RiskForecastRequest,
        exists entries : list ScenarioEntry,
          compare_scenarios (__init__ scale predict) requests
          = Ok {| ActivityRoutes.success := true;
                  ActivityRoutes.payload :=
                    {| scenarios := entries;
                       total_scenarios := length requests |} |}
          /\ length entries = length requests
          /\ forall (i : nat) (e : ScenarioEntry),
              entries !! i = Some e ->
              scenario_id_of e = i /\ is_scenario_error e = true).
Proof.
  assert (Hcall : forall request : RiskForecastRequest,
             exists detail : string,
               call_forecast (__init__ scale predict) request
               = Raise (Exception_ ("Risk forecasting failed: " +:+ detail))).
  { intros request. unfold call_forecast. apply forecast_risk_raises.
    apply init_scalers_fitted_on_15. }
  split.
  - intros request. unfold forecast_health_risk.
    destruct (Hcall request) as [detail ->].
    cbn [mbind result_bind try_except str_exn]. exists detail. reflexivity.
  - intros requests.
    exists (imap (scenario_entry (__init__ scale predict)) requests).
    split; [|split].
    + unfold compare_scenarios. cbn [try_except]. rewrite length_imap.
      reflexivity.
    + apply length_imap.
    + intros i e. rewrite list_lookup_imap.
      destruct (requests !! i) as [request|]; [|discriminate].
      cbn [fmap option_fmap option_map]. intros [= <-].
      unfold scenario_entry. destruct (Hcall request) as [detail ->].
      split; reflexivity.
Qed.
End RiskForecastingRestSpec.

(** ** Activity detection, continued *)
Module ActivityRestSpec.
Import Py ActivityDetection.

(** A number below [a] is not above any [b] greater than [a]. *)
Lemma below_is_not_above (a b x : float) :
  PrimFloat.ltb a b = true -> PrimFloat.ltb x a = true ->
  PrimFloat.ltb b x = false.
Proof.
  intros Hab Hxa. apply FloatOrder.ltb_asym.
  apply (FloatOrder.ltb_trans x a b); assumption.
Qed.

(** The ladder and the intensity read the same two features. *)
Lemma ladder_and_intensity (features : list float) :
  (2 <= length features)%nat ->
  (fst (_mock_prediction features) = "running"%string ->
   _calculate_intensity features = "high"%string)
  /\ (fst (_mock_prediction features) = "walking"%string ->
      _calculate_intensity features = "high"%string
      \/ _calculate_intensity features = "moderate"%string)
  /\ (fst (_mock_prediction features) = "sitting"%string ->
      _calculate_intensity features = "low"%string)
  /\ In (_calculate_intensity features) ["low"; "moderate"; "high"]%string
  /\ In (_mock_prediction features)
        [("running", 0.85); ("walking", 0.80); ("sitting", 0.90);
         ("standing", 0.75)]%string%float.
Proof.
  destruct features as [|m [|sd l]]; cbn [length]; try lia. intros _.
  unfold _mock_prediction, _calculate_intensity, ladder.
  cbn [length Nat.ltb Nat.leb nth].
  pose proof (below_is_not_above 0.1 0.5 m eq_refl) as H1.
  pose proof (below_is_not_above 0.1 0.2 m eq_refl) as H2.
  pose proof (below_is_not_above 0.05 0.4 sd eq_refl) as H3.
  pose proof (below_is_not_above 0.05 0.15 sd eq_refl) as H4.
  destruct (PrimFloat.ltb 0.5 m); destruct (PrimFloat.ltb 0.3 sd);
    destruct (PrimFloat.ltb 0.2 m); destruct (PrimFloat.ltb 0.1 sd);
    destruct (PrimFloat.ltb 0.4 sd); destruct (PrimFloat.ltb 0.15 sd);
    destruct (PrimFloat.ltb m 0.1); destruct (PrimFloat.ltb sd 0.05);
    try (specialize (H1 eq_refl); discriminate);
    try (specialize (H2 eq_refl); discriminate);
    try (specialize (H3 eq_refl); discriminate);
    try (specialize (H4 eq_refl); discriminate);
    cbn [fst andb orb]; repeat split; intros; try discriminate;
    try reflexivity; cbn [In]; tauto.
Qed.

Import ActivityRoutes.

(** [detect_activity] without a classifier, spelled out. *)
Lemma fallback_run (round1 : float -> float)
    (acc gyro : gmap string (list float)) (duration : Z)
    (user_id : option string) (rnd : Z) :
  ActivityDetection.detect_activity round1 fallback_service
    acc gyro duration user_id rnd
  = match _extract_features acc gyro duration with
    | Ok features =>
        Ok {| predicted_activity := fst (_mock_prediction features);
              confidence := snd (_mock_prediction features);
              top_predictions :=
                [(fst (_mock_prediction features),
                  snd (_mock_prediction features))];
              ActivityDetection.duration_seconds := duration;
              intensity_level := _calculate_intensity features;
              estimated_calories :=
                _estimate_calories round1 (fst (_mock_prediction features))
                  duration (_calculate_intensity features);
              features_extracted := length features;
              processing_time_ms := rnd |}
    | Raise e =>
        Raise (Exception_ ("Activity detection failed: " +:+ str_exn e))
    end.
Proof.
  unfold ActivityDetection.detect_activity, detect_activity_body.
  destruct (_extract_features acc gyro duration) as [features|e];
    cbn [mbind result_bind try_except]; [|reflexivity].
  cbn [model fallback_service].
  destruct (_mock_prediction features) as [activity conf].
  reflexivity.
Qed.

(** X11: whatever [detect_activity] returns without a classifier has
    this shape: the label is running, walking, sitting or standing
    with the ladder's confidence, and is one of the service's
    activities; it is the only top prediction; 26 features were
    extracted; the intensity is low, moderate or high, never unknown;
    running comes with high intensity, walking never with low, sitting
    with low. *)
Theorem fallback_result_shape (round1 : float -> float)
    (acc gyro : gmap string (list float)) (duration : Z)
    (user_id : option string) (rnd : Z) (r : ActivityResult) :
  ActivityDetection.detect_activity round1 fallback_service
    acc gyro duration user_id rnd = Ok r ->
  In (predicted_activity r, confidence r)
     [("running", 0.85); ("walking", 0.80); ("sitting", 0.90);
      ("standing", 0.75)]%string%float
  /\ In (predicted_activity r) the_activities
  /\ top_predictions r = [(predicted_activity r, confidence r)]
  /\ features_extracted r = 26%nat
  /\ In (intensity_level r) ["low"; "moderate"; "high"]%string
  /\ (predicted_activity r = "running"%string ->
      intensity_level r = "high"%string)
  /\ (predicted_activity r = "walking"%string ->
      intensity_level r <> "low"%string)
  /\ (predicted_activity r = "sitting"%string ->
      intensity_level r = "low"%string).
Proof.
  rewrite fallback_run.
  destruct (_extract_features acc gyro duration) as [features|e] eqn:Hf;
    [|discriminate].
  intros [= <-].
  cbn [predicted_activity confidence top_predictions features_extracted
       intensity_level].
  pose proof (ActivityDetectionSpec.extract_features_length _ _ _ _ Hf) as Hlen.
  destruct (ladder_and_intensity features) as (Hr & Hw & Hs & Hi & Hp);
    [lia|].
  rewrite <- surjective_pairing.
  repeat split; try assumption.
  - cbn [In] in Hp. cbn [In the_activities].
    destruct Hp as [<-|[<-|[<-|[<-|[]]]]]; cbn [fst]; tauto.
  - intros Hwalk. destruct (Hw Hwalk) as [->| ->]; discriminate.
Qed.

(** X11 for a device at rest. *)
Lemma fallback_result_shape_witness :
  exists r : ActivityResult,
    ActivityDetection.detect_activity (fun x => x) fallback_service
      (accelerometer_data (at_rest 10)) (gyroscope_data (at_rest 10))
      60 None 120 = Ok r
    /\ top_predictions r = [(predicted_activity r, confidence r)]
    /\ features_extracted r = 26%nat.
Proof.
  destruct (ActivityDetection.detect_activity (fun x => x) fallback_service
      (accelerometer_data (at_rest 10)) (gyroscope_data (at_rest 10))
      60 None 120) as [r|e] eqn:H; [|vm_compute in H; discriminate].
  exists r. split; [reflexivity|].
  destruct (fallback_result_shape _ _ _ _ _ _ r H) as (_ & _ & Ht & Hn & _).
  split; assumption.
Defined.








(** X14: the single-request route either answers success, for a
    request of at least ten samples on which the service returned, or
    raises an HTTP error of status 500 whose detail starts with
    "Activity detection failed: "; it raises no other status. *)
Theorem single_route_fails_only_with_500 (round1 : float -> float)
    (activity_service : ActivityDetectionService)
    (request : ActivityRequest) (rnd : Z) :
  (exists r,
      detect_activity round1 activity_service request rnd
      = Ok {| success := true; payload := r |}
      /\ (10 <= length (accelerometer_x (data request)))%nat
      /\ call_service round1 activity_service request rnd = Ok r)
  \/ (exists detail : string,
        detect_activity round1 activity_service request rnd
        = Raise (HTTPException 500
                   ("Activity detection failed: " +:+ detail))).
Proof.
  unfold detect_activity.
  destruct (Nat.ltb_spec (length (accelerometer_x (data request))) 10).
  - right. eexists. reflexivity.
  - cbn [mbind result_bind].
    destruct (call_service round1 activity_service request rnd) as [r|e].
    + left. exists r. repeat split. exact H.
    + right. eexists. reflexivity.
Qed.

(** X15: the batch route never raises: for every service and every
    list of requests it answers success with one entry per request, in
    order, numbered by position; the entry carries the service's
    result when the service returned and the text of its exception
    when it raised. *)
Theorem batch_answers_entry_by_entry (round1 : float -> float)
    (activity_service : ActivityDetectionService)
    (requests : list ActivityRequest) (rnd : nat -> Z) :
  exists entries : list BatchEntry,
    detect_activity_batch round1 activity_service requests rnd
    = Ok {| success := true;
            payload := {| results := entries;
                          total_samples := length requests |} |}
    /\ length entries = length requests
    /\ forall (i : nat) (request : ActivityRequest),
        requests !! i = Some request ->
        exists e : BatchEntry,
          entries !! i = Some e
          /\ sample_id_of e = i
          /\ match e, call_service round1 activity_service request (rnd i) with
             | WithResult _ r, Ok r' => r = r'
             | WithError _ msg, Raise exn => msg = str_exn exn
             | _, _ => False
             end.
Proof.
  exists (imap (batch_entry round1 activity_service rnd) requests).
  split; [|split].
  - unfold detect_activity_batch. cbn [try_except].
    rewrite length_imap. reflexivity.
  - apply length_imap.
  - intros i request H. rewrite list_lookup_imap, H.
    eexists. split; [reflexivity|]. unfold batch_entry.
    destruct (call_service round1 activity_service request (rnd i));
      split; reflexivity.
Qed.

(** X16: with the classifier of [__init__], whose scaler is fitted on
    12 columns, no detection succeeds: the single-request route
    answers every request with status 500, and every entry of every
    batch carries an error. *)
Theorem fitted_service_fails_every_request (round1 : float -> float)
    (scale : list float -> list float)
    (predict_proba : list float -> result (list float)) :
  (forall (request : ActivityRequest) (rnd : Z),
      exists detail : string,
        detect_activity round1 (__init__ scale predict_proba) request rnd
        = Raise (HTTPException 500
                   ("Activity detection failed: " +:+ detail)))
  /\ (forall (requests : list ActivityRequest) (rnd : nat -> Z),
        exists entries : list BatchEntry,
          detect_activity_batch round1 (__init__ scale predict_proba)
            requests rnd
          = Ok {| success := true;
                  payload := {| results := entries;
                                total_samples := length requests |} |}
          /\ length entries = length requests
          /\ forall (i : nat) (e : BatchEntry),
              entries !! i = Some e ->
              sample_id_of e = i /\ has_error e = true).
Proof.
  assert (Hcall : forall (request : ActivityRequest) (rnd : Z),
             exists msg : string,
               call_service round1 (__init__ scale predict_proba) request rnd
               = Raise (Exception_ msg)).
  { intros request rnd. unfold call_service.
    apply ActivityDetectionSpec.fitted_service_raises. }
  split.
  - intros request rnd. unfold detect_activity.
    destruct (Nat.ltb_spec (length (accelerometer_x (data request))) 10).
    + eexists. reflexivity.
    + cbn [mbind result_bind]. destruct (Hcall request rnd) as [msg ->].
      eexists. reflexivity.
  - intros requests rnd.
    exists (imap (batch_entry round1 (__init__ scale predict_proba) rnd) requests).
    split; [|split].
    + unfold detect_activity_batch. cbn [try_except].
      rewrite length_imap. reflexivity.
    + apply length_imap.
    + intros i e. rewrite list_lookup_imap.
      destruct (requests !! i) as [request|]; [|discriminate].
      cbn [fmap option_fmap option_map]. intros [= <-].
      unfold batch_entry. destruct (Hcall request (rnd i)) as [msg ->].
      split; reflexivity.
Qed.
End ActivityRestSpec.

(** ** The conversation store, continued *)
Module ChatRestSpec.
Import Py Chat ChatSpec.

(** X17: [delete_conversation] never raises, also for an unknown id;
    afterwards the history of that id is the not-found [ValueError]
    (which the history route turns into status 500), every other
    conversation is as before, deleting again changes nothing, and the
    delete route still answers success. *)
Theorem history_after_delete (cid : string) (s : State) :
  exists s' : State,
    delete_conversation cid s = (Ok tt, s')
    /\ get_conversation_history cid s'
       = (Raise (ValueError "Conversation not found"), s')
    /\ (forall other : string,
          other <> cid ->
          conversations s' !! other = conversations s !! other)
    /\ delete_conversation cid s' = (Ok tt, s')
    /\ ChatRoutes.get_conversation_history_route cid s'
       = (Raise (HTTPException 500
            "Failed to get conversation history: Conversation not found"), s')
    /\ ChatRoutes.delete_conversation_route cid s'
       = (Ok {| ChatRoutes.deleted_success := true;
                ChatRoutes.deleted_message :=
                  "Conversation deleted successfully" |}, s').
Proof.
  rewrite delete_run. eexists. split; [reflexivity|].
  set (s' := {| conversations := _; tick := _ |}).
  assert (Hgone : conversations s' !! cid = None)
    by (cbn [conversations s']; apply lookup_delete_eq).
  assert (Hdel : delete_conversation cid s' = (Ok tt, s')).
  { rewrite delete_run. cbn [conversations s' tick].
    rewrite delete_delete_eq. reflexivity. }
  split; [|split; [|split; [|split]]].
  - rewrite history_run, Hgone. reflexivity.
  - intros other Hne. cbn [conversations s'].
    apply lookup_delete_ne. congruence.
  - exact Hdel.
  - unfold ChatRoutes.get_conversation_history_route, try_except_M.
    rewrite bind_run, history_run, Hgone. reflexivity.
  - unfold ChatRoutes.delete_conversation_route, try_except_M.
    rewrite bind_run, Hdel. reflexivity.
Qed.

(** The user's message and the assistant's, as [process_message]
    stores them. *)
Definition is_exchange (message user_id : string) (reply : Reply.t)
    (m1 m2 : Message.t) : Prop :=
  Message.message m1 = message /\ Message.is_user m1 = true
  /\ Message.user_id m1 = user_id
  /\ Message.message m2 = Reply.message reply /\ Message.is_user m2 = false
  /\ Message.user_id m2 = user_id.

(** X18: [process_message] on a stored conversation appends exactly
    two messages to its history and changes nothing before them: the
    user's text and then the reply, both tagged with the caller's user
    id, whoever started the conversation; the conversation's own user
    id, context and creation time stay, and no other conversation is
    touched. *)
Theorem process_message_appends_two (env : Env) (s : State)
    (cid : string) (c : Conversation.t) (message user_id context : string) :
  cid <> EmptyString ->
  conversations s !! cid = Some c ->
  exists (reply : Reply.t) (s' : State) (c' : Conversation.t)
         (m1 m2 : Message.t),
    process_message env message user_id context (Some cid) s = (Ok reply, s')
    /\ conversations s' !! cid = Some c'
    /\ Conversation.messages c' = Conversation.messages c ++ [m1; m2]
    /\ is_exchange message user_id reply m1 m2
    /\ Conversation.user_id c' = Conversation.user_id c
    /\ Conversation.context c' = Conversation.context c
    /\ Conversation.created_at c' = Conversation.created_at c
    /\ forall other : string,
        other <> cid -> conversations s' !! other = conversations s !! other.
Proof.
  intros Hne Hc. destruct cid as [|a r]; [congruence|].
  rewrite process_with_id.
  destruct (exchange_present env message user_id context (String a r) s c Hc)
    as (reply & t1 & t2 & t3 & t4 & -> & _).
  eexists reply, _, _, _, _. split; [reflexivity|].
  cbn [conversations]. split; [apply lookup_insert_eq|].
  split; [cbn [with_message Conversation.messages];
          rewrite <- app_assoc; reflexivity|].
  split; [repeat split|]. repeat split.
  intros other Hother. apply lookup_insert_ne. congruence.
Qed.

(** X18 for a second user writing into the conversation of [u1]. *)
Lemma process_message_appends_two_witness :
  exists (reply : Reply.t) (s' : State) (c' : Conversation.t)
         (m1 m2 : Message.t),
    process_message sample_env "any food advice?" "someone-else" "health_coaching"
      (Some "123e4567-e89b-42d3-a456-426614174000"%string)
      (snd (start_conversation sample_env "u1" "mental_wellness" init))
    = (Ok reply, s')
    /\ conversations s' !! "123e4567-e89b-42d3-a456-426614174000"%string
       = Some c'
    /\ Conversation.messages c' = [m1; m2]
    /\ Message.user_id m1 = "someone-else"%string
    /\ Conversation.user_id c' = "u1"%string.
Proof.
  destruct (process_message_appends_two sample_env
              (snd (start_conversation sample_env "u1" "mental_wellness" init))
              "123e4567-e89b-42d3-a456-426614174000"
              (fresh_conversation "u1" "mental_wellness"
                 (now sample_env 1) (now sample_env 2))
              "any food advice?" "someone-else" "health_coaching")
    as (reply & s' & c' & m1 & m2 & Hrun & Hc' & Hm & Hx & Hu & _);
    [discriminate|reflexivity|].
  exists reply, s', c', m1, m2.
  split; [exact Hrun|]. split; [exact Hc'|]. split; [exact Hm|].
  split; [apply Hx|exact Hu].
Defined.

Lemma hex_digits_length (count : nat) : forall (u : N) (rest : string),
  String.length (hex_digits u count rest) = (count + String.length rest)%nat.
Proof.
  induction count as [|n IH]; intros u rest; cbn [hex_digits]; [reflexivity|].
  rewrite IH. cbn [String.length]. lia.
Qed.

Lemma str_uuid_length (u : N) : String.length (str_uuid u) = 36%nat.
Proof.
  unfold str_uuid.
  repeat (rewrite hex_digits_length; cbn [String.length]). reflexivity.
Qed.

(** X19: [process_message] without an id ([None] or the empty
    string) starts a conversation under a new 36-character id, which
    it returns; that conversation belongs to the caller, has the given
    context and holds exactly the two messages of the exchange; every
    other id is as before. *)
Theorem process_message_without_id_starts_one (env : Env) (s : State)
    (message user_id context : string) (given : option string) :
  truthy given = false ->
  exists (reply : Reply.t) (s' : State) (c : Conversation.t)
         (m1 m2 : Message.t),
    process_message env message user_id context given s = (Ok reply, s')
    /\ Reply.conversation_id reply = str_uuid (uuid4 env (tick s))
    /\ String.length (Reply.conversation_id reply) = 36%nat
    /\ conversations s' !! Reply.conversation_id reply = Some c
    /\ Conversation.user_id c = user_id
    /\ Conversation.context c = context
    /\ Conversation.messages c = [m1; m2]
    /\ is_exchange message user_id reply m1 m2
    /\ forall other : string,
        other <> Reply.conversation_id reply ->
        conversations s' !! other = conversations s !! other.
Proof.
  intros Hfalsy. rewrite (process_without_id env _ _ _ _ s Hfalsy).
  rewrite start_conversation_run. cbn [snd].
  set (cid := str_uuid (uuid4 env (tick s))).
  set (c0 := fresh_conversation _ _ _ _).
  destruct (exchange_present env message user_id context cid
              {| conversations := <[cid := c0]> (conversations s);
                 tick := S (S (S (tick s))) |} c0)
    as (reply & t1 & t2 & t3 & t4 & -> & Hid);
    [cbn [conversations]; apply lookup_insert_eq|].
  eexists reply, _, _, _, _. split; [reflexivity|].
  rewrite Hid. split; [reflexivity|]. split; [apply str_uuid_length|].
  cbn [conversations]. rewrite insert_insert_eq.
  split; [apply lookup_insert_eq|].
  repeat split.
  intros other Hother. apply lookup_insert_ne. congruence.
Qed.

(** X19 on a fresh service. *)
Lemma process_message_without_id_starts_one_witness :
  exists (reply : Reply.t) (s' : State) (c : Conversation.t),
    process_message sample_env "hello" "u7" "diabetes_management" None init
    = (Ok reply, s')
    /\ Reply.conversation_id reply
       = "123e4567-e89b-42d3-a456-426614174000"%string
    /\ conversations s' !! Reply.conversation_id reply = Some c
    /\ Conversation.context c = "diabetes_management"%string
    /\ length (Conversation.messages c) = 2%nat.
Proof.
  destruct (process_message_without_id_starts_one sample_env init
              "hello" "u7" "diabetes_management" None eq_refl)
    as (reply & s' & c & m1 & m2 & Hrun & Hid & _ & Hc & _ & Hctx & Hm & _).
  exists reply, s', c.
  split; [exact Hrun|]. split; [rewrite Hid; vm_compute; reflexivity|].
  split; [exact Hc|]. split; [exact Hctx|]. rewrite Hm. reflexivity.
Defined.






(** A history built from exchanges: a user message, then the
    assistant's, and so on. *)
Inductive Dialogue : list Message.t -> Prop :=
| dialogue_nil : Dialogue []
| dialogue_exchange (ms : list Message.t) (m1 m2 : Message.t) :
    Dialogue ms ->
    Message.is_user m1 = true -> Message.is_user m2 = false ->
    Dialogue (ms ++ [m1; m2]).

Lemma dialogue_even (ms : list Message.t) :
  Dialogue ms -> Nat.even (length ms) = true.
Proof.
  induction 1 as [|ms m1 m2 _ IH _ _]; [reflexivity|].
  rewrite length_app. cbn [length].
  replace (length ms + 2)%nat with (S (S (length ms))) by lia. exact IH.
Qed.

Lemma dialogue_alternates (ms : list Message.t) :
  Dialogue ms ->
  forall (i : nat) (m : Message.t),
    ms !! i = Some m -> Message.is_user m = Nat.even i.
Proof.
  induction 1 as [|ms m1 m2 Hd IH H1 H2]; intros i m Hi.
  - rewrite lookup_nil in Hi. discriminate.
  - pose proof (dialogue_even ms Hd) as Hev.
    destruct (Nat.lt_ge_cases i (length ms)) as [Hlt|Hge].
    + rewrite lookup_app_l in Hi by exact Hlt. apply IH. exact Hi.
    + rewrite lookup_app_r in Hi by exact Hge.
      replace i with ((i - length ms) + length ms)%nat by lia.
      destruct (i - length ms)%nat as [|[|n]].
      * injection Hi as <-. rewrite H1. symmetry. exact Hev.
      * injection Hi as <-. rewrite H2. cbn [Nat.add].
        rewrite Nat.even_succ, <- Nat.negb_even, Hev. reflexivity.
      * discriminate.
Qed.

Definition all_dialogues (s : State) : Prop :=
  forall (cid : string) (c : Conversation.t),
    conversations s !! cid = Some c -> Dialogue (Conversation.messages c).

Lemma exchange_keeps_dialogues (env : Env)
    (message user_id context cid : string) (s : State) :
  all_dialogues s ->
  all_dialogues (snd (exchange env message user_id context cid s)).
Proof.
  intros Hs. destruct (conversations s !! cid) as [c|] eqn:Hc.
  - destruct (exchange_present env message user_id context cid s c Hc)
      as (reply & t1 & t2 & t3 & t4 & -> & _).
    cbn [snd]. intros k x. cbn [conversations].
    destruct (decide (cid = k)) as [<-|Hne].
    + rewrite lookup_insert_eq. intros [= <-].
      cbn [with_message Conversation.messages]. rewrite <- app_assoc.
      apply dialogue_exchange; [apply (Hs cid c Hc)|reflexivity|reflexivity].
    + rewrite lookup_insert_ne by exact Hne. apply Hs.
  - destruct (exchange_absent env message user_id context cid s Hc)
      as (reply & -> & _).
    exact Hs.
Qed.

Lemma start_keeps_dialogues (env : Env) (user_id context : string)
    (s : State) :
  all_dialogues s ->
  all_dialogues (snd (start_conversation env user_id context s)).
Proof.
  intros Hs. rewrite start_conversation_run. cbn [snd].
  intros k x. cbn [conversations].
  destruct (decide (str_uuid (uuid4 env (tick s)) = k)) as [<-|Hne].
  - rewrite lookup_insert_eq. intros [= <-]. apply dialogue_nil.
  - rewrite lookup_insert_ne by exact Hne. apply Hs.
Qed.

(** The calls of the public methods: everything but a direct
    [_store_message]. *)
Definition public (call : Call) : bool :=
  match call with
  | CallStore _ _ _ _ => false
  | _ => true
  end.

Lemma public_call_keeps_dialogues (env : Env) (call : Call) (s : State) :
  public call = true -> all_dialogues s -> all_dialogues (exec env call s).
Proof.
  destruct call as [u c|m u c o|i m b u|i|i]; cbn [public exec];
    intros Hp Hs; try discriminate.
  - apply start_keeps_dialogues. exact Hs.
  - destruct (truthy o) eqn:Ht.
    + destruct o as [[|a r]|]; try discriminate.
      rewrite process_with_id. apply exchange_keeps_dialogues. exact Hs.
    + rewrite (process_without_id env _ _ _ _ s Ht).
      apply exchange_keeps_dialogues, start_keeps_dialogues. exact Hs.
  - rewrite history_run. exact Hs.
  - rewrite delete_run. cbn [snd]. intros k x. cbn [conversations].
    destruct (decide (i = k)) as [<-|Hne].
    + rewrite lookup_delete_eq. discriminate.
    + rewrite lookup_delete_ne by exact Hne. apply Hs.
Qed.

Lemma public_run_keeps_dialogues (env : Env) (calls : list Call) :
  forall (s : State) (supplied : gmap string string),
    forallb public calls = true -> all_dialogues s ->
    all_dialogues (fst (run env calls s supplied)).
Proof.
  induction calls as [|call rest IH]; intros s supplied Hp Hs; cbn [run].
  - exact Hs.
  - cbn [forallb] in Hp. apply andb_true_iff in Hp as [Hc Hr].
    apply IH; [exact Hr|]. apply public_call_keeps_dialogues; assumption.
Qed.

(** X21: after any sequence of calls of the public methods on a fresh
    service, every stored history has even length and alternates: the
    message at an even position is the user's, at an odd position the
    assistant's. *)
Theorem histories_alternate (env : Env) (calls : list Call)
    (cid : string) (c : Conversation.t) :
  forallb public calls = true ->
  conversations (fst (run env calls init ∅)) !! cid = Some c ->
  Nat.even (length (Conversation.messages c)) = true
  /\ forall (i : nat) (m : Message.t),
      Conversation.messages c !! i = Some m ->
      Message.is_user m = Nat.even i.
Proof.
  intros Hp Hc.
  assert (Hd : Dialogue (Conversation.messages c)).
  { apply (public_run_keeps_dialogues env calls init ∅ Hp) with (cid := cid);
      [|exact Hc].
    intros k x H. cbn [init conversations] in H.
    rewrite lookup_empty in H. discriminate. }
  split; [apply dialogue_even; exact Hd|apply dialogue_alternates; exact Hd].
Qed.

Definition three_calls : list Call :=
  [CallStart "u1" "mental_wellness";
   CallProcess "I feel stress" "u1" "health_coaching"
     (Some "123e4567-e89b-42d3-a456-426614174000"%string);
   CallProcess "and I cannot sleep" "u1" "health_coaching"
     (Some "123e4567-e89b-42d3-a456-426614174000"%string)].

(** X21 after one start and two messages. *)
Lemma histories_alternate_witness :
  exists c : Conversation.t,
    conversations (fst (run sample_env three_calls init ∅))
      !! "123e4567-e89b-42d3-a456-426614174000"%string = Some c
    /\ length (Conversation.messages c) = 4%nat
    /\ forall (i : nat) (m : Message.t),
        Conversation.messages c !! i = Some m ->
        Message.is_user m = Nat.even i.
Proof.
  destruct (conversations (fst (run sample_env three_calls init ∅))
              !! "123e4567-e89b-42d3-a456-426614174000"%string)
    as [c|] eqn:H; [|vm_compute in H; discriminate].
  exists c. split; [reflexivity|].
  split; [vm_compute in H; injection H as <-; reflexivity|].
  apply (histories_alternate sample_env three_calls
           "123e4567-e89b-42d3-a456-426614174000" c eq_refl H).
Defined.
End ChatRestSpec.
